(** * btc-indexes: a shallow embedding of [btc-indexes.py]

    The script polls five HTTP endpoints, derives the Mayer Multiple,
    evaluates buy/transfer signals and redraws a terminal dashboard.

    Layout of this development:
    - [Py]     : the fragment of Python's runtime the script relies on
                 (dynamic values, exceptions, numeric tower with binary64
                 floats, [int()], [round(x, 2)], [math.floor], [sum]);
    - fetchers : [get_btc_price] ... [get_transfer_fees], each a
                 [try]/[finally: return local] block over a local variable;
    - [calculate_mayer_index], [check_indexes];
    - the terminal renderer and the main loop as a trace of output events;
    - the properties. *)

From Stdlib Require Import ZArith String Ascii List Bool Lia.
From Stdlib Require Import Floats.SpecFloat.
From stdpp Require Import base option gmap strings list.

Set Warnings "-register-all".
#[local] Open Scope string_scope.
#[local] Open Scope Z_scope.

(* ===================================================================== *)
(** * Python runtime fragment *)
(* ===================================================================== *)

Module Py.

(** Dynamic values.  Everything [resp.json()] can produce is a [pyval]:
    [null], booleans, integers of arbitrary size, binary64 floats (the
    decoder maps an out-of-range literal such as [1e999] to infinity and
    accepts the tokens [NaN] and [Infinity]), strings, lists and objects.
    Strings are kept as their UTF-8 bytes.  A [dict] is a finite map; the
    one place where the script iterates over a dict (the three fee keys)
    is written with the explicit key order of the dict literal. *)
Inductive pyval : Type :=
  | PNone
  | PBool (b : bool)
  | PInt (z : Z)
  | PFloat (f : spec_float)
  | PStr (s : string)
  | PList (l : list pyval)
  | PDict (d : gmap string pyval).

(** Exceptions that the modelled operations can raise.  All of them derive
    from [Exception]; [RequestException] covers [requests]' own hierarchy
    (connection errors, timeouts, [HTTPError], JSON decoding errors). *)
Inductive exn : Type :=
  | RequestException
  | ValueError
  | TypeError
  | KeyError
  | IndexError
  | ZeroDivisionError
  | OverflowError.

(** Outcome of evaluating an expression: a value or a raised exception. *)
Inductive res (A : Type) : Type :=
  | Ok (a : A)
  | Raise (e : exn).
Arguments Ok {A} a.
Arguments Raise {A} e.

#[global] Instance res_ret : MRet res := fun _ a => Ok a.

#[global] Instance res_bind : MBind res := fun _ _ k r =>
  match r with
  | Ok a => k a
  | Raise e => Raise e
  end.

(** ** Type tests and truthiness *)

(** [x is None] *)
Definition is_none (v : pyval) : bool :=
  match v with PNone => true | _ => false end.

(** [isinstance(v, dict)] *)
Definition isinstance_dict (v : pyval) : bool :=
  match v with PDict _ => true | _ => false end.

(** [isinstance(v, list)] *)
Definition isinstance_list (v : pyval) : bool :=
  match v with PList _ => true | _ => false end.

(** [isinstance(v, (int, float))].  [bool] is a subclass of [int], so
    [True] and [False] pass the test. *)
Definition isinstance_number (v : pyval) : bool :=
  match v with
  | PBool _ | PInt _ | PFloat _ => true
  | _ => false
  end.

(** [bool(v)]: the truth value used by [if], [and], [not]. *)
Definition truthy (v : pyval) : bool :=
  match v with
  | PNone => false
  | PBool b => b
  | PInt z => negb (z =? 0)
  | PFloat (S754_zero _) => false
  | PFloat _ => true
  | PStr s => negb (String.length s =? 0)%nat
  | PList l => negb (length l =? 0)%nat
  | PDict d => negb (size d =? 0)%nat
  end.

(** ** Binary64 floats *)

Definition prec : Z := 53.
Definition emax : Z := 1024.

(** The integer 0, +-p as an (unnormalised) float datum with exponent 0. *)
Definition raw_of_Z (z : Z) : spec_float :=
  match z with
  | Z0 => S754_zero false
  | Zpos p => S754_finite false p 0
  | Zneg p => S754_finite true p 0
  end.

(** Nearest binary64 to an integer, ties to even; infinite on overflow. *)
Definition float_of_Z (z : Z) : spec_float :=
  binary_normalize prec emax z 0 false.

(** Nearest binary64 to the fraction [n / d] ([d > 0]): how a decimal
    literal such as [0.8] = 8/10 is read. *)
Definition float_of_frac (n d : Z) : spec_float :=
  SFdiv prec emax (raw_of_Z n) (raw_of_Z d).

Definition is_inf (f : spec_float) : bool :=
  match f with S754_infinity _ => true | _ => false end.

Definition is_zero (f : spec_float) : bool :=
  match f with S754_zero _ => true | _ => false end.

(** [float(z)] for an [int]: [OverflowError] when out of range. *)
Definition int_to_float (z : Z) : res spec_float :=
  let f := float_of_Z z in
  if is_inf f then Raise OverflowError else Ok f.

(** The numeric tower: [bool] acts as the integers 0 and 1. *)
Inductive number : Type :=
  | NInt (z : Z)
  | NFloat (f : spec_float).

Definition as_number (v : pyval) : option number :=
  match v with
  | PBool b => Some (NInt (Z.b2z b))
  | PInt z => Some (NInt z)
  | PFloat f => Some (NFloat f)
  | _ => None
  end.

Definition of_number (n : number) : pyval :=
  match n with
  | NInt z => PInt z
  | NFloat f => PFloat f
  end.

(** ** Arithmetic *)

(** [a + b] on numbers. *)
Definition num_add (a b : number) : res number :=
  match a, b with
  | NInt x, NInt y => Ok (NInt (x + y))
  | NInt x, NFloat g =>
      (f ← int_to_float x; Ok (NFloat (SFadd prec emax f g)))
  | NFloat f, NInt y =>
      (g ← int_to_float y; Ok (NFloat (SFadd prec emax f g)))
  | NFloat f, NFloat g => Ok (NFloat (SFadd prec emax f g))
  end.

(** [a / b] (true division) on numbers.  Two ints divide to the correctly
    rounded quotient, with [OverflowError] when it exceeds the float
    range; a zero divisor raises [ZeroDivisionError] in every case, and
    float division itself never raises on overflow. *)
Definition num_truediv (a b : number) : res number :=
  match a, b with
  | NInt x, NInt y =>
      if y =? 0 then Raise ZeroDivisionError
      else
        let q := SFdiv prec emax (raw_of_Z x) (raw_of_Z y) in
        if is_inf q then Raise OverflowError else Ok (NFloat q)
  | NInt x, NFloat g =>
      (f ← int_to_float x;
       if is_zero g then Raise ZeroDivisionError
       else Ok (NFloat (SFdiv prec emax f g)))
  | NFloat f, NInt y =>
      (g ← int_to_float y;
       if is_zero g then Raise ZeroDivisionError
       else Ok (NFloat (SFdiv prec emax f g)))
  | NFloat f, NFloat g =>
      if is_zero g then Raise ZeroDivisionError
      else Ok (NFloat (SFdiv prec emax f g))
  end.

(** [a / b] on dynamic values: [TypeError] unless both are numbers (the
    script never divides anything else that supports [/]). *)
Definition truediv (a b : pyval) : res pyval :=
  match as_number a, as_number b with
  | Some x, Some y => (q ← num_truediv x y; Ok (of_number q))
  | _, _ => Raise TypeError
  end.

(** Integer nearest to [m * 100 * 2^e], ties to even ([m >= 0]). *)
Definition scale100_half_even (m e : Z) : Z :=
  if 0 <=? e then m * 100 * 2 ^ e
  else
    let d := 2 ^ (- e) in
    let q := (m * 100) / d in
    let r := (m * 100) mod d in
    match 2 * r ?= d with
    | Lt => q
    | Gt => q + 1
    | Eq => if Z.even q then q else q + 1
    end.

(** [round(x, 2)] for a float: non-finite values and zeros round to
    themselves; otherwise the exact value is rounded to two decimals
    (ties to even) and the decimal [k / 100] is read back as the nearest
    float, keeping the sign also when [k = 0]. *)
Definition float_round2 (f : spec_float) : spec_float :=
  match f with
  | S754_finite s m e =>
      match scale100_half_even (Zpos m) e with
      | Zpos k => SFdiv prec emax (S754_finite s k 0) (raw_of_Z 100)
      | _ => S754_zero s
      end
  | _ => f
  end.

(** [round(v, 2)]: an [int] is returned unchanged. *)
Definition round2 (v : pyval) : res pyval :=
  match as_number v with
  | Some (NInt z) => Ok (PInt z)
  | Some (NFloat f) => Ok (PFloat (float_round2 f))
  | None => Raise TypeError
  end.

(** Floor and truncation of the exact value of a finite float. *)
Definition float_floor_Z (s : bool) (m : positive) (e : Z) : Z :=
  let v := cond_Zopp s (Zpos m) in
  if 0 <=? e then v * 2 ^ e else v / 2 ^ (- e).

Definition float_trunc_Z (s : bool) (m : positive) (e : Z) : Z :=
  let v := cond_Zopp s (Zpos m) in
  if 0 <=? e then v * 2 ^ e else Z.quot v (2 ^ (- e)).

(** [math.floor(v)]: [ValueError] on NaN, [OverflowError] on infinities. *)
Definition math_floor (v : pyval) : res pyval :=
  match as_number v with
  | Some (NInt z) => Ok (PInt z)
  | Some (NFloat (S754_zero _)) => Ok (PInt 0)
  | Some (NFloat (S754_finite s m e)) => Ok (PInt (float_floor_Z s m e))
  | Some (NFloat S754_nan) => Raise ValueError
  | Some (NFloat (S754_infinity _)) => Raise OverflowError
  | None => Raise TypeError
  end.

(** [sum(l)]: the items are added left to right, starting from the
    integer 0 (the documented meaning; an implementation that carries a
    compensation term for floats can differ in the last bit only). *)
Definition sum_step (acc : res number) (v : pyval) : res number :=
  (a ← acc;
   match as_number v with
   | Some n => num_add a n
   | None => Raise TypeError
   end).

Definition sum (l : list pyval) : res pyval :=
  (n ← fold_left sum_step l (Ok (NInt 0)); Ok (of_number n)).

(** ** Comparison

    Python compares ints and floats by their exact values; any comparison
    with NaN is false. *)
Inductive xnum : Type :=
  | XNaN
  | XInf (neg : bool)
  | XFin (m e : Z).      (* the value m * 2^e *)

Definition xnum_of (n : number) : xnum :=
  match n with
  | NInt z => XFin z 0
  | NFloat (S754_zero _) => XFin 0 0
  | NFloat (S754_infinity s) => XInf s
  | NFloat S754_nan => XNaN
  | NFloat (S754_finite s m e) => XFin (cond_Zopp s (Zpos m)) e
  end.

Definition xnum_compare (a b : xnum) : option comparison :=
  match a, b with
  | XNaN, _ | _, XNaN => None
  | XInf s1, XInf s2 =>
      Some (match s1, s2 with
            | true, false => Lt
            | false, true => Gt
            | _, _ => Eq
            end)
  | XInf s, XFin _ _ => Some (if s then Lt else Gt)
  | XFin _ _, XInf s => Some (if s then Gt else Lt)
  | XFin m1 e1, XFin m2 e2 =>
      let e := Z.min e1 e2 in
      Some (m1 * 2 ^ (e1 - e) ?= m2 * 2 ^ (e2 - e))
  end.

Definition num_compare (a b : pyval) : option comparison :=
  match as_number a, as_number b with
  | Some x, Some y => xnum_compare (xnum_of x) (xnum_of y)
  | _, _ => None
  end.

(** [a < b] and [a <= b] for operands already known to be numbers. *)
Definition num_lt (a b : pyval) : bool :=
  match num_compare a b with Some Lt => true | _ => false end.

Definition num_le (a b : pyval) : bool :=
  match num_compare a b with Some (Lt | Eq) => true | _ => false end.

(** ** Conversions and subscripting *)

(** Whitespace stripped by [int()] around the digits (ASCII range). *)
Definition is_space (c : ascii) : bool :=
  let n := nat_of_ascii c in
  ((9 <=? n) && (n <=? 13) || (28 <=? n) && (n <=? 32))%nat.

Definition digit_of (c : ascii) : option Z :=
  let n := nat_of_ascii c in
  if ((48 <=? n) && (n <=? 57))%nat then Some (Z.of_nat n - 48) else None.

Fixpoint lstrip (s : string) : string :=
  match s with
  | String c s' => if is_space c then lstrip s' else s
  | EmptyString => s
  end.

Definition strip (s : string) : string :=
  String.rev (lstrip (String.rev (lstrip s))).

(** Decimal digits with single underscores allowed between digits;
    [after_digit] records that the previous character was a digit. *)
Fixpoint parse_digits (s : string) (acc : Z) (after_digit : bool) : option Z :=
  match s with
  | EmptyString => if after_digit then Some acc else None
  | String c s' =>
      match digit_of c with
      | Some d => parse_digits s' (10 * acc + d) true
      | None =>
          if (nat_of_ascii c =? 95)%nat && after_digit
          then parse_digits s' acc false
          else None
      end
  end.

(** [int(s)] for a string, base 10, over ASCII digits and whitespace. *)
Definition parse_int (s : string) : option Z :=
  match strip s with
  | String "-" s' => Z.opp <$> parse_digits s' 0 false
  | String "+" s' => parse_digits s' 0 false
  | s' => parse_digits s' 0 false
  end.

(** [int(v)]: strings are parsed ([ValueError] when they are no integer
    literal), floats are truncated towards zero ([ValueError] on NaN,
    [OverflowError] on infinities), containers and [None] raise
    [TypeError]. *)
Definition int_of (v : pyval) : res pyval :=
  match v with
  | PBool b => Ok (PInt (Z.b2z b))
  | PInt z => Ok (PInt z)
  | PFloat (S754_zero _) => Ok (PInt 0)
  | PFloat (S754_finite s m e) => Ok (PInt (float_trunc_Z s m e))
  | PFloat S754_nan => Raise ValueError
  | PFloat (S754_infinity _) => Raise OverflowError
  | PStr s =>
      match parse_int s with
      | Some z => Ok (PInt z)
      | None => Raise ValueError
      end
  | PNone | PList _ | PDict _ => Raise TypeError
  end.

(** [d.get(k)] on a dict: the value, or [None] when the key is missing. *)
Definition dict_get (d : gmap string pyval) (k : string) : pyval :=
  default PNone (d !! k).

(** [v[i]] for a literal index [i >= 0].  The keys of a decoded JSON
    object are strings, so an integer subscript on a dict is a
    [KeyError]. *)
Definition getitem_int (v : pyval) (i : nat) : res pyval :=
  match v with
  | PList l =>
      match l !! i with
      | Some x => Ok x
      | None => Raise IndexError
      end
  | PStr s =>
      match String.get i s with
      | Some c => Ok (PStr (String c EmptyString))
      | None => Raise IndexError
      end
  | PDict _ => Raise KeyError
  | PNone | PBool _ | PInt _ | PFloat _ => Raise TypeError
  end.

(** [v[k]] for a string key. *)
Definition getitem_str (v : pyval) (k : string) : res pyval :=
  match v with
  | PDict d =>
      match d !! k with
      | Some x => Ok x
      | None => Raise KeyError
      end
  | _ => Raise TypeError
  end.

(** ** Blocks with a local variable

    [M S A]: a statement sequence that reads and assigns a local of type
    [S] and either completes with an [A] or raises. *)
Definition M (S A : Type) : Type := S -> S * res A.

#[global] Instance M_ret {S} : MRet (M S) := fun _ a s => (s, Ok a).

#[global] Instance M_bind {S} : MBind (M S) := fun _ _ k m s =>
  match m s with
  | (s', Ok a) => k a s'
  | (s', Raise e) => (s', Raise e)
  end.

Definition lift {S A} (r : res A) : M S A := fun s => (s, r).
Definition raise {S A} (e : exn) : M S A := lift (Raise e).
Definition assign {S} (s' : S) : M S unit := fun _ => (s', Ok tt).
Definition modify {S} (f : S -> S) : M S unit := fun s => (f s, Ok tt).
Definition read {S} : M S S := fun s => (s, Ok s).

(** [for x in l: body]. *)
Fixpoint for_each {S A} (l : list A) (body : A -> M S unit) : M S unit :=
  match l with
  | [] => mret tt
  | x :: l' => body x ;; for_each l' body
  end.

(** The shape shared by the five fetchers:
<<
    local = init
    try: body
    except ...: log_exception(...)
    finally: return local
>>
    The handlers only log, and the [return] in the [finally] clause
    discards any exception in flight, so the call always returns the
    current content of the local. *)
Definition try_finally_return {S A} (init : S) (body : M S A) : S :=
  fst (body init).

End Py.

Import Py.

(* ===================================================================== *)
(** * The outside world *)
(* ===================================================================== *)

(** What one [requests.get(url, timeout=TIMEOUT)] yields: no response at
    all (connection error, timeout, ...), or a response with its status
    code and the result of decoding its body as JSON ([None] when the body
    is not JSON). *)
Inductive http_reply : Type :=
  | NoReply
  | Reply (status : Z) (json : option pyval).

Record response : Type := { status_code : Z; body_json : option pyval }.

Definition requests_get (r : http_reply) : res response :=
  match r with
  | NoReply => Raise RequestException
  | Reply st js => Ok {| status_code := st; body_json := js |}
  end.

(** [resp.raise_for_status()]: raises for 4xx and 5xx codes. *)
Definition raise_for_status (resp : response) : res unit :=
  if (400 <=? status_code resp) && (status_code resp <? 600)
  then Raise RequestException else Ok tt.

(** [resp.json()] *)
Definition json (resp : response) : res pyval :=
  match body_json resp with
  | Some v => Ok v
  | None => Raise RequestException
  end.

(* ===================================================================== *)
(** * Constants *)
(* ===================================================================== *)

Definition MAYER_BUY_THRESHOLD : pyval := PFloat (float_of_Z 1).
Definition FEAR_GREED_BUY_THRESHOLD : pyval := PInt 25.
Definition FEE_TRANSFER_THRESHOLD : pyval := PInt 15.

(* ===================================================================== *)
(** * Data fetchers *)
(* ===================================================================== *)

(** Each fetcher takes the reply its request receives and returns what
    the Python function returns.  Logging is left out: [log_exception]
    does nothing while [ENABLE_LOGGER] is [False], and neither it nor the
    [logging.warning] of the fee fetcher touches a returned value. *)

Definition get_btc_price (r : http_reply) : pyval :=
  try_finally_return PNone
    (resp ← lift (requests_get r);
     lift (raise_for_status resp) ;;
     data ← lift (json resp);
     match data with
     | PDict data =>
         match dict_get data "bitcoin" with
         | PDict btc_data =>
             assign (dict_get btc_data "usd") ;;
             price ← read;
             if negb (isinstance_number price) then raise ValueError
             else mret tt
         | _ => raise ValueError
         end
     | _ => raise ValueError
     end).

Definition get_btc_ath (r : http_reply) : pyval :=
  try_finally_return PNone
    (resp ← lift (requests_get r);
     lift (raise_for_status resp) ;;
     data ← lift (json resp);
     match data with
     | PDict data =>
         match dict_get data "market_data" with
         | PDict market_data =>
             match dict_get market_data "ath" with
             | PDict ath =>
                 assign (dict_get ath "usd") ;;
                 ath_usd ← read;
                 if negb (isinstance_number ath_usd) then raise ValueError
                 else mret tt
             | _ => raise ValueError
             end
         | _ => raise ValueError
         end
     | _ => raise ValueError
     end).

(** [[item[1] for item in prices_raw]] *)
Fixpoint second_components (items : list pyval) : res (list pyval) :=
  match items with
  | [] => Ok []
  | item :: rest =>
      p ← getitem_int item 1;
      ps ← second_components rest;
      Ok (p :: ps)
  end.

(** The request parameters (the 200-day window ending now) only shape
    the request; the reply is the argument [r]. *)
Definition get_200_day_ma (r : http_reply) : pyval :=
  try_finally_return PNone
    (resp ← lift (requests_get r);
     lift (raise_for_status resp) ;;
     data ← lift (json resp);
     match data with
     | PDict data =>
         match data !! "prices" with
         | None => raise ValueError
         | Some _ =>
             match dict_get data "prices" with
             | PList prices_raw =>
                 if negb (truthy (PList prices_raw)) then raise ValueError
                 else
                   prices ← lift (second_components prices_raw);
                   if negb (truthy (PList prices)) then raise ValueError
                   else
                     total ← lift (sum prices);
                     mean ← lift (truediv total
                                    (PInt (Z.of_nat (length prices))));
                     assign mean ;;
                     ma200 ← read;
                     floored ← lift (math_floor ma200);
                     assign floored
             | _ => raise ValueError
             end
         end
     | _ => raise ValueError
     end).

Definition get_fear_and_greed (r : http_reply) : pyval * pyval :=
  try_finally_return (PNone, PNone)
    (resp ← lift (requests_get r);
     lift (raise_for_status resp) ;;
     data ← lift (json resp);
     match data with
     | PDict d =>
         match d !! "data" with
         | None => raise ValueError
         | Some _ =>
             fg_items ← lift (getitem_str data "data");
             if negb (isinstance_list fg_items) || negb (truthy fg_items)
             then raise ValueError
             else
               fg ← lift (getitem_int fg_items 0);
               match fg with
               | PDict fg =>
                   let value_raw := dict_get fg "value" in
                   modify (fun '(value, _) =>
                             (value, dict_get fg "value_classification")) ;;
                   '(_, label) ← read;
                   if is_none value_raw || is_none label
                   then raise ValueError
                   else
                     coerced ← lift (int_of value_raw);
                     modify (fun '(_, label) => (coerced, label))
               | _ => raise ValueError
               end
         end
     | _ => raise ValueError
     end).

(** Keys of the [new_fees] literal, in the order the [for] loop visits
    them. *)
Definition FEE_KEYS : list string := ["fastestFee"; "halfHourFee"; "hourFee"].

Definition get_transfer_fees (r : http_reply) : gmap string pyval :=
  try_finally_return
    (<["fastestFee" := PNone]> (<["halfHourFee" := PNone]>
       (<["hourFee" := PNone]> ∅)))
    (resp ← lift (requests_get r);
     lift (raise_for_status resp) ;;
     data ← lift (json resp);
     match data with
     | PDict data =>
         for_each FEE_KEYS (fun key =>
           let value := dict_get data key in
           if isinstance_number value
           then modify (fun new_fees => <[key := value]> new_fees)
           else mret tt)
     | _ => raise ValueError
     end).

(* ===================================================================== *)
(** * Derivation *)
(* ===================================================================== *)

Definition calculate_mayer_index (price moving_average : pyval) : res pyval :=
  if truthy price && truthy moving_average
  then q ← truediv price moving_average; round2 q
  else Ok PNone.

(** ["--" if value is None else value] *)
Definition check_print (value : pyval) : pyval :=
  if is_none value then PStr "--" else value.

(* ===================================================================== *)
(** * Signal evaluator *)
(* ===================================================================== *)

Definition LF : string := String (ascii_of_nat 10) EmptyString.
Definition ESC : string := String (ascii_of_nat 27) EmptyString.

(** The four advisory lines; each starts with a line feed. *)
Definition BUY_LINE : string :=
  LF +:+ "✅ BUY SIGNAL: Conditions favorable for lump buy!".
Definition TRANSFER_LINE : string :=
  LF +:+ "✅ TRANSFER SIGNAL: Conditions favorable for transfer on-chain!".
Definition MISSING_LINE : string :=
  LF +:+ "⚠️ Failed to fetch some data.".
Definition NO_SIGNAL_LINE : string :=
  LF +:+ "ℹ️ No specific signals at this time.".

Definition check_indexes (price btc_ath ma200 mayer fear_value fees : pyval)
  : string * Z :=
  let lines := 0 in
  let message := EmptyString in
  let missing_data :=
    existsb is_none [price; btc_ath; ma200; mayer; fear_value; fees] in
  let half_hour_fee :=
    match fees with
    | PDict d => dict_get d "halfHourFee"
    | _ => PNone
    end in
  let '(message, lines) :=
    if isinstance_number mayer && num_lt mayer MAYER_BUY_THRESHOLD
       && isinstance_number fear_value
       && num_le fear_value FEAR_GREED_BUY_THRESHOLD
    then (message +:+ BUY_LINE, lines + 1)
    else (message, lines) in
  let '(message, lines) :=
    if isinstance_number half_hour_fee
       && num_le half_hour_fee FEE_TRANSFER_THRESHOLD
    then (message +:+ TRANSFER_LINE, lines + 1)
    else (message, lines) in
  let '(message, lines) :=
    if missing_data
    then (message +:+ MISSING_LINE, lines + 1)
    else (message, lines) in
  let '(message, lines) :=
    if negb (truthy (PStr message))
    then (NO_SIGNAL_LINE, lines + 1)
    else (message, lines) in
  (message, lines).

(* ===================================================================== *)
(** * Terminal renderer and main loop *)
(* ===================================================================== *)

(** Pieces of a printed line: literal text, a formatted value, or a
    formatted exception. *)
Inductive frag : Type :=
  | Lit (s : string)
  | Fmt (v : pyval)
  | FmtExn (e : exn).

(** What the script does on standard output, in order. *)
Inductive event : Type :=
  | WriteOut (s : string)          (* sys.stdout.write(s) *)
  | FlushOut                       (* sys.stdout.flush() *)
  | Println (fs : list frag)      (* print(...): the pieces, then a newline *)
  | Sleep (seconds : Z).        (* time.sleep(seconds) *)

Definition CURSOR_UP : string := ESC +:+ "[F".
Definition ERASE_LINE : string := ESC +:+ "[K".

Definition clear_all (hide_cursor : bool) : list event :=
  [WriteOut (ESC +:+ "[2J" +:+ ESC +:+ "[H");
   WriteOut (if hide_cursor then ESC +:+ "[?25l" else ESC +:+ "[?25h");
   FlushOut].

Definition print_header : list event :=
    [
     Println [Lit "▄▄███▄▄·██████╗ ████████╗ ██████╗██████╗  █████╗ ███████╗██╗  ██╗"];
     Println [Lit "██╔════╝██╔══██╗╚══██╔══╝██╔════╝██╔══██╗██╔══██╗██╔════╝██║  ██║"];
     Println [Lit "███████╗██████╔╝   ██║   ██║     ██║  ██║███████║███████╗███████║"];
     Println [Lit "╚════██║██╔══██╗   ██║   ██║     ██║  ██║██╔══██║╚════██║██╔══██║"];
     Println [Lit "███████║██████╔╝   ██║   ╚██████╗██████╔╝██║  ██║███████║██║  ██║"];
     Println [Lit "╚═▀▀▀══╝╚═════╝    ╚═╝    ╚═════╝╚═════╝ ╚═╝  ╚═╝╚══════╝╚═╝  ╚═╝"];
     Println []].

(** [for _ in range(n)]: nothing when [n <= 0]. *)
Definition clear_terminal_lines (n : Z) : list event :=
  List.concat (repeat [WriteOut CURSOR_UP; WriteOut ERASE_LINE] (Z.to_nat n)).

(** Statements that write to the terminal and may raise: the output so
    far, and the outcome. *)
Definition IO (A : Type) : Type := list event * res A.

#[global] Instance IO_ret : MRet IO := fun _ a => ([], Ok a).

#[global] Instance IO_bind : MBind IO := fun _ _ k m =>
  match m with
  | (out, Ok a) => let '(out', r) := k a in ((out ++ out')%list, r)
  | (out, Raise e) => (out, Raise e)
  end.

Definition emit (es : list event) : IO unit := (es, Ok tt).
Definition eval {A} (r : res A) : IO A := ([], r).

(** The replies the five endpoints give during one cycle. *)
Record replies : Type := {
  price_reply : http_reply;
  info_reply : http_reply;
  range_reply : http_reply;
  fear_greed_reply : http_reply;
  fees_reply : http_reply
}.

(** One iteration of the [while True] body up to [print(warn_message)];
    yields [lines]. *)
Definition cycle (w : replies) : IO Z :=
  emit [Println [Lit "Fetching data..."]] ;;
  let price := get_btc_price (price_reply w) in
  let btc_ath := get_btc_ath (info_reply w) in
  let ma200 := get_200_day_ma (range_reply w) in
  mayer ← eval (calculate_mayer_index price ma200);
  let '(fear_value, fear_label) := get_fear_and_greed (fear_greed_reply w) in
  let fees := PDict (get_transfer_fees (fees_reply w)) in
  emit (clear_terminal_lines 1) ;;
  emit [Println [Lit "🔸 BTC Price:       $"; Fmt (check_print price)]] ;;
  emit [Println [Lit "🔸 BTC ATH:         $"; Fmt (check_print btc_ath)]] ;;
  emit [Println [Lit "🔸 200-day MA:      $"; Fmt (check_print ma200)]] ;;
  emit [Println [Lit "🔸 Mayer Multiple:  "; Fmt (check_print mayer)]] ;;
  emit [Println [Lit "🔸 Fear & Greed:    "; Fmt (check_print fear_value);
               Lit " ("; Fmt (check_print fear_label); Lit ")"]] ;;
  fast ← eval (getitem_str fees "fastestFee");
  normal ← eval (getitem_str fees "halfHourFee");
  cheap ← eval (getitem_str fees "hourFee");
  emit [Println [Lit "🔸 Fees (sat/vB):   [Fast] "; Fmt (check_print fast);
               Lit ", [Normal] "; Fmt (check_print normal);
               Lit ", [Cheap] "; Fmt (check_print cheap)]] ;;
  let '(warn_message, lines) :=
    check_indexes price btc_ath ma200 mayer fear_value fees in
  emit [Println [Lit warn_message]] ;;
  mret lines.

(** The loop never ends by itself.  A run is described by the replies of
    the cycles it gets through: the operator interrupts during the sleep
    that follows the last of them.  [Ok tt] stands for that interrupt,
    [Raise e] for an exception escaping a cycle. *)
Fixpoint main_loop (ws : list replies) : IO unit :=
  match ws with
  | [] => mret tt
  | w :: rest =>
      lines ← cycle w;
      emit [Sleep 1800] ;;
      match rest with
      | [] => mret tt
      | _ :: _ => emit (clear_terminal_lines (lines + 7)) ;; main_loop rest
      end
  end.

(** The [__main__] block, with [ENABLE_LOGGER = False]. *)
Definition main (ws : list replies) : list event :=
  let '(out, r) := main_loop ws in
  (clear_all true ++ print_header ++ out ++
   match r with
   | Ok _ => [Println [Lit (LF +:+ "Exiting script..." +:+ LF)]]
   | Raise e =>
       [Println [Lit (LF +:+ "Something unexpected happened: "); Lit " ";
               FmtExn e]]
   end ++
   clear_all false)%list.

(* ===================================================================== *)
(** * Vocabulary of the properties *)
(* ===================================================================== *)

(** A decoded JSON object written as a list of members. *)
Definition obj (members : list (string * pyval)) : pyval :=
  PDict (list_to_map members).

(** The conditions [check_indexes] branches on. *)
Definition missing_data (price btc_ath ma200 mayer fear_value fees : pyval)
  : bool :=
  existsb is_none [price; btc_ath; ma200; mayer; fear_value; fees].

Definition half_hour_fee (fees : pyval) : pyval :=
  match fees with
  | PDict d => dict_get d "halfHourFee"
  | _ => PNone
  end.

Definition buy_signal (mayer fear_value : pyval) : bool :=
  isinstance_number mayer && num_lt mayer MAYER_BUY_THRESHOLD
  && isinstance_number fear_value && num_le fear_value FEAR_GREED_BUY_THRESHOLD.

Definition transfer_signal (fees : pyval) : bool :=
  isinstance_number (half_hour_fee fees)
  && num_le (half_hour_fee fees) FEE_TRANSFER_THRESHOLD.

(** Lines appended by the three rules, in the order of the appends. *)
Definition appended (buy transfer missing : bool) : list string :=
  ((if buy then [BUY_LINE] else []) ++
   (if transfer then [TRANSFER_LINE] else []) ++
   (if missing then [MISSING_LINE] else []))%list.

(** Lines of the returned message: the appended ones, or the fallback. *)
Definition report (buy transfer missing : bool) : list string :=
  match appended buy transfer missing with
  | [] => [NO_SIGNAL_LINE]
  | ls => ls
  end.

Definition join (ls : list string) : string := String.concat EmptyString ls.

(** Offset of the first occurrence of [line] in [message], if any. *)
Definition position (line message : string) : option nat :=
  String.index 0 line message.

Definition shows (line message : string) : bool :=
  match position line message with
  | Some _ => true
  | None => false
  end.

(** Every advisory line starts with the only line feed it contains, so the
    number of advisory lines of a message is its number of line feeds. *)
Fixpoint line_feeds (s : string) : nat :=
  match s with
  | EmptyString => 0
  | String c s' => ((if Ascii.eqb c (ascii_of_nat 10) then 1 else 0)
                    + line_feeds s')%nat
  end.

(** Lines erased by a sequence of terminal events. *)
Fixpoint erased_lines (es : list event) : nat :=
  match es with
  | [] => 0
  | WriteOut s :: es' => ((if String.eqb s ERASE_LINE then 1 else 0)
                       + erased_lines es')%nat
  | _ :: es' => erased_lines es'
  end.

(** The two components of the evaluator's result. *)
Definition message (price btc_ath ma200 mayer fear_value fees : pyval)
  : string :=
  fst (check_indexes price btc_ath ma200 mayer fear_value fees).

Definition line_count (price btc_ath ma200 mayer fear_value fees : pyval)
  : Z :=
  snd (check_indexes price btc_ath ma200 mayer fear_value fees).

(** Status codes on which [raise_for_status] raises. *)
Definition http_error (st : Z) : bool := (400 <=? st) && (st <? 600).

(** The JSON document that reaches a fetcher's shape checks, if any:
    none when the request failed, when the status is 4xx/5xx, or when the
    body is not JSON. *)
Definition decoded (r : http_reply) : option pyval :=
  match r with
  | Reply st (Some v) => if http_error st then None else Some v
  | _ => None
  end.

(** The fee mapping with every field absent, and the mapping obtained
    from a decoded object by checking each field on its own. *)
Definition no_fees : gmap string pyval :=
  <["fastestFee" := PNone]>
    (<["halfHourFee" := PNone]> (<["hourFee" := PNone]> ∅)).

Definition fee_field (data : gmap string pyval) (key : string) : pyval :=
  if isinstance_number (dict_get data key) then dict_get data key else PNone.

Definition fees_from (data : gmap string pyval) : gmap string pyval :=
  <["fastestFee" := fee_field data "fastestFee"]>
    (<["halfHourFee" := fee_field data "halfHourFee"]>
       (<["hourFee" := fee_field data "hourFee"]> ∅)).

(** [a == b] on numbers. *)
Definition num_eqb (a b : pyval) : bool :=
  match num_compare a b with Some Eq => true | _ => false end.

(** A cycle during which no endpoint answers. *)
Definition offline : replies :=
  {| price_reply := NoReply; info_reply := NoReply; range_reply := NoReply;
     fear_greed_reply := NoReply; fees_reply := NoReply |}.

(** The binary64 value written [n.d] in the source of a test input. *)
Definition decimal (n d : Z) : pyval := PFloat (float_of_frac n d).

(** The dashboard of one cycle: the six metric lines, as the [print]
    calls of the main loop lay them out. *)
Definition dashboard (price btc_ath ma200 mayer fear_value fear_label : pyval)
    (fees : gmap string pyval) : list event :=
  [Println [Lit "🔸 BTC Price:       $"; Fmt (check_print price)];
   Println [Lit "🔸 BTC ATH:         $"; Fmt (check_print btc_ath)];
   Println [Lit "🔸 200-day MA:      $"; Fmt (check_print ma200)];
   Println [Lit "🔸 Mayer Multiple:  "; Fmt (check_print mayer)];
   Println [Lit "🔸 Fear & Greed:    "; Fmt (check_print fear_value);
            Lit " ("; Fmt (check_print fear_label); Lit ")"];
   Println [Lit "🔸 Fees (sat/vB):   [Fast] ";
            Fmt (check_print (dict_get fees "fastestFee"));
            Lit ", [Normal] "; Fmt (check_print (dict_get fees "halfHourFee"));
            Lit ", [Cheap] "; Fmt (check_print (dict_get fees "hourFee"))]].

(** Line feeds that printing a value emits: a string is printed as it
    is; a number, [None] or a container is printed on one line. *)
Definition value_line_feeds (v : pyval) : nat :=
  match v with
  | PStr s => line_feeds s
  | _ => 0%nat
  end.

Definition frag_line_feeds (f : frag) : nat :=
  match f with
  | Lit s => line_feeds s
  | Fmt v => value_line_feeds v
  | FmtExn _ => 0%nat
  end.

(** Rows by which a sequence of events moves the cursor down: [print]
    ends its text with a line feed. *)
Fixpoint printed_rows (es : list event) : nat :=
  match es with
  | [] => 0%nat
  | Println fs :: es' =>
      (1 + list_sum (map frag_line_feeds fs) + printed_rows es')%nat
  | _ :: es' => printed_rows es'
  end.

(** The values that a sequence of events formats into printed lines. *)
Definition formatted_in (fs : list frag) : list pyval :=
  flat_map (fun f => match f with Fmt v => [v] | _ => [] end) fs.

Fixpoint formatted_values (es : list event) : list pyval :=
  match es with
  | [] => []
  | Println fs :: es' => (formatted_in fs ++ formatted_values es')%list
  | _ :: es' => formatted_values es'
  end.

(** Events that leave the screen mode alone: prints, sleeps, and the two
    escape sequences that move up one line and erase it. *)
Definition line_edit (e : event) : bool :=
  match e with
  | WriteOut s => String.eqb s CURSOR_UP || String.eqb s ERASE_LINE
  | FlushOut => false
  | Println _ | Sleep _ => true
  end.

(** Durations of the sleeps of a sequence of events. *)
Fixpoint sleeps (es : list event) : list Z :=
  match es with
  | [] => []
  | Sleep n :: es' => n :: sleeps es'
  | _ :: es' => sleeps es'
  end.


(** A price series given as (timestamp, price) pairs. *)
Definition series (samples : list (pyval * pyval)) : pyval :=
  PList (map (fun tp => PList [fst tp; snd tp]) samples).

(* ===================================================================== *)
(** * Signal evaluator: properties *)
(* ===================================================================== *)

Section Evaluator.

Variables price btc_ath ma200 mayer fear_value fees : pyval.

#[local] Abbreviation buy := (buy_signal mayer fear_value).
#[local] Abbreviation transfer := (transfer_signal fees).
#[local] Abbreviation missing :=
  (missing_data price btc_ath ma200 mayer fear_value fees).

(** The evaluator in closed form. *)
Lemma check_indexes_report :
  check_indexes price btc_ath ma200 mayer fear_value fees
  = (join (report buy transfer missing),
     Z.of_nat (length (report buy transfer missing))).
Proof.
  unfold check_indexes.
  unfold buy_signal, transfer_signal, missing_data, half_hour_fee.
  destruct (isinstance_number mayer && num_lt mayer MAYER_BUY_THRESHOLD
            && isinstance_number fear_value
            && num_le fear_value FEAR_GREED_BUY_THRESHOLD);
    destruct (isinstance_number _ && num_le _ FEE_TRANSFER_THRESHOLD);
    destruct (existsb is_none _); reflexivity.
Qed.

Lemma missing_data_false :
  missing = false <->
  price <> PNone /\ btc_ath <> PNone /\ ma200 <> PNone /\
  mayer <> PNone /\ fear_value <> PNone /\ fees <> PNone.
Proof.
  unfold missing_data. cbn [existsb].
  rewrite !orb_false_iff.
  assert (H : forall v, is_none v = false <-> v <> PNone)
    by (intros []; cbn; split; congruence).
  rewrite !H. tauto.
Qed.

End Evaluator.

(** Facts about the eight possible reports, by enumeration. *)
Ltac by_cases b t m := destruct b, t, m; vm_compute; reflexivity.

Lemma shows_buy b t m : shows BUY_LINE (join (report b t m)) = b.
Proof. by_cases b t m. Qed.

Lemma shows_transfer b t m : shows TRANSFER_LINE (join (report b t m)) = t.
Proof. by_cases b t m. Qed.

Lemma shows_missing b t m : shows MISSING_LINE (join (report b t m)) = m.
Proof. by_cases b t m. Qed.

Lemma shows_no_signal b t m :
  shows NO_SIGNAL_LINE (join (report b t m)) = negb (b || t || m).
Proof. by_cases b t m. Qed.

Lemma line_feeds_report b t m :
  line_feeds (join (report b t m)) = length (report b t m).
Proof. by_cases b t m. Qed.

Lemma report_lines b t m :
  Forall (fun l => In l [BUY_LINE; TRANSFER_LINE; MISSING_LINE; NO_SIGNAL_LINE])
         (report b t m).
Proof.
  destruct b, t, m; unfold report, appended; cbn [app];
    repeat (constructor; [cbn [In]; tauto | ]); constructor.
Qed.

Lemma appended_empty b t m :
  join (appended b t m) = EmptyString <-> b = false /\ t = false /\ m = false.
Proof.
  destruct b, t, m; vm_compute;
    try (split; [discriminate | intros (? & ? & ?); discriminate]); tauto.
Qed.

Lemma position_buy_transfer b t m i j :
  position BUY_LINE (join (report b t m)) = Some i ->
  position TRANSFER_LINE (join (report b t m)) = Some j -> (i < j)%nat.
Proof.
  destruct b, t, m; vm_compute; intros Hi Hj;
    try discriminate; injection Hi as <-; injection Hj as <-; lia.
Qed.

Lemma position_buy_missing b t m i j :
  position BUY_LINE (join (report b t m)) = Some i ->
  position MISSING_LINE (join (report b t m)) = Some j -> (i < j)%nat.
Proof.
  destruct b, t, m; vm_compute; intros Hi Hj;
    try discriminate; injection Hi as <-; injection Hj as <-; lia.
Qed.

Lemma position_transfer_missing b t m i j :
  position TRANSFER_LINE (join (report b t m)) = Some i ->
  position MISSING_LINE (join (report b t m)) = Some j -> (i < j)%nat.
Proof.
  destruct b, t, m; vm_compute; intros Hi Hj;
    try discriminate; injection Hi as <-; injection Hj as <-; lia.
Qed.

(** Integer comparisons are the ones of [Z]. *)
Ltac by_compare :=
  match goal with
  | |- context [?a ?= ?b] => destruct (Z.compare_spec a b)
  end;
  split; intros; first [ congruence | lia | exfalso; lia ].

Lemma num_le_int x y : num_le (PInt x) (PInt y) = true <-> x <= y.
Proof.
  unfold num_le, num_compare, xnum_compare. cbn.
  rewrite !Z.mul_1_r. by_compare.
Qed.

Lemma num_lt_int_one x : num_lt (PInt x) MAYER_BUY_THRESHOLD = true <-> x < 1.
Proof.
  unfold num_lt, num_compare, MAYER_BUY_THRESHOLD.
  cbn [as_number].
  replace (float_of_Z 1) with (S754_finite false 4503599627370496 (-52))
    by (vm_compute; reflexivity).
  cbn [xnum_of xnum_compare cond_Zopp].
  change (Z.min 0 (-52)) with (-52). change (0 - -52) with 52.
  change (-52 - -52) with 0.
  rewrite Z.pow_0_r, Z.mul_1_r.
  change (2 ^ 52) with 4503599627370496.
  by_compare.
Qed.

(** Exactness of the comparison with the float 1.0: a finite float
    [+-m * 2^e] is below it exactly when its value is below 1. *)
Lemma num_lt_float_one s m e :
  num_lt (PFloat (S754_finite s m e)) MAYER_BUY_THRESHOLD = true
  <-> if 0 <=? e then cond_Zopp s (Zpos m) * 2 ^ e < 1
      else cond_Zopp s (Zpos m) < 2 ^ (- e).
Proof.
  unfold num_lt, num_compare, MAYER_BUY_THRESHOLD.
  cbn [as_number].
  replace (float_of_Z 1) with (S754_finite false 4503599627370496 (-52))
    by (vm_compute; reflexivity).
  cbn [xnum_of xnum_compare].
  change (cond_Zopp false 4503599627370496) with (2 ^ 52).
  set (M := cond_Zopp s (Z.pos m)).
  assert (Hc : forall a b p, 0 < p -> (a * p ?= b * p) = (a ?= b))
    by (intros a b p Hp; symmetry; apply Zmult_compare_compat_r; lia).
  destruct (Z.leb_spec 0 e) as [He | He].
  - rewrite Z.min_r by lia.
    replace (e - -52) with (e + 52) by lia.
    replace (-52 - -52) with 0 by lia.
    rewrite Z.pow_add_r, Z.pow_0_r, Z.mul_1_r, Z.mul_assoc by lia.
    rewrite <- (Z.mul_1_l (2 ^ 52)) at 2.
    rewrite Hc by (apply Z.pow_pos_nonneg; lia).
    by_compare.
  - destruct (Z.le_ge_cases e (-52)) as [Hs | Hs].
    + rewrite Z.min_l by lia.
      replace (e - e) with 0 by lia.
      rewrite Z.pow_0_r, Z.mul_1_r, <- Z.pow_add_r by lia.
      replace (52 + (-52 - e)) with (- e) by lia.
      by_compare.
    + rewrite Z.min_r by lia.
      replace (e - -52) with (e + 52) by lia.
      replace (-52 - -52) with 0 by lia.
      rewrite Z.pow_0_r, Z.mul_1_r.
      replace (2 ^ 52) with (2 ^ (- e) * 2 ^ (e + 52))
        by (rewrite <- Z.pow_add_r by lia; f_equal; lia).
      rewrite Hc by (apply Z.pow_pos_nonneg; lia).
      by_compare.
Qed.


Lemma message_report price btc_ath ma200 mayer fear_value fees :
  message price btc_ath ma200 mayer fear_value fees
  = join (report (buy_signal mayer fear_value) (transfer_signal fees)
            (missing_data price btc_ath ma200 mayer fear_value fees)).
Proof. unfold message. now rewrite check_indexes_report. Qed.

Lemma line_count_report price btc_ath ma200 mayer fear_value fees :
  line_count price btc_ath ma200 mayer fear_value fees
  = Z.of_nat (length
      (report (buy_signal mayer fear_value) (transfer_signal fees)
         (missing_data price btc_ath ma200 mayer fear_value fees))).
Proof. unfold line_count. now rewrite check_indexes_report. Qed.

(** C2, as the claim states it, fails: with the all-time high missing,
    Mayer 0.8 and fear 20, the buy-signal line opens the message (offset
    0) and the missing-data warning follows it (offset 51); the message
    is the buy line followed by the warning, not the reverse. *)
Lemma missing_warning_follows_buy_line :
  let msg := message (PInt 65000) PNone (PInt 60000) (decimal 8 10)
               (PInt 20) (obj [("halfHourFee", PInt 20)]) in
  position BUY_LINE msg = Some 0%nat
  /\ position MISSING_LINE msg = Some 51%nat
  /\ msg = BUY_LINE +:+ MISSING_LINE
  /\ msg <> MISSING_LINE +:+ BUY_LINE.
Proof.
  vm_compute. repeat split; try reflexivity. intros H. discriminate H.
Qed.

(** C2 (amended): for every input of the signal evaluator, the advisory
    lines of the returned message are concatenated in the order buy-signal
    line, transfer-signal line, missing-data warning (the warning comes
    last); each of the three lines is present exactly when its own
    condition holds, so the warning never suppresses the other two. *)
Theorem advisory_lines_order price btc_ath ma200 mayer fear_value fees :
  message price btc_ath ma200 mayer fear_value fees
  = join (report (buy_signal mayer fear_value) (transfer_signal fees)
            (missing_data price btc_ath ma200 mayer fear_value fees))
  /\ shows BUY_LINE (message price btc_ath ma200 mayer fear_value fees)
     = buy_signal mayer fear_value
  /\ shows TRANSFER_LINE (message price btc_ath ma200 mayer fear_value fees)
     = transfer_signal fees
  /\ shows MISSING_LINE (message price btc_ath ma200 mayer fear_value fees)
     = missing_data price btc_ath ma200 mayer fear_value fees
  /\ (forall i j,
       position BUY_LINE
         (message price btc_ath ma200 mayer fear_value fees) = Some i ->
       position TRANSFER_LINE
         (message price btc_ath ma200 mayer fear_value fees) = Some j ->
       (i < j)%nat)
  /\ (forall i j,
       position BUY_LINE
         (message price btc_ath ma200 mayer fear_value fees) = Some i ->
       position MISSING_LINE
         (message price btc_ath ma200 mayer fear_value fees) = Some j ->
       (i < j)%nat)
  /\ (forall i j,
       position TRANSFER_LINE
         (message price btc_ath ma200 mayer fear_value fees) = Some i ->
       position MISSING_LINE
         (message price btc_ath ma200 mayer fear_value fees) = Some j ->
       (i < j)%nat).
Proof.
  rewrite message_report.
  split; [reflexivity | ].
  split; [apply shows_buy | ].
  split; [apply shows_transfer | ].
  split; [apply shows_missing | ].
  split; [ | split]; intros i j.
  - apply position_buy_transfer.
  - apply position_buy_missing.
  - apply position_transfer_missing.
Qed.

Lemma advisory_lines_order_witness :
  message (PInt 65000) PNone (PInt 60000) (decimal 8 10) (PInt 20)
    (obj [("halfHourFee", PInt 20)])
  = join [BUY_LINE; MISSING_LINE].
Proof.
  exact (proj1 (advisory_lines_order (PInt 65000) PNone (PInt 60000)
                  (decimal 8 10) (PInt 20)
                  (obj [("halfHourFee", PInt 20)]))).
Defined.


(** C4: the "no signals" line is in the message exactly when the three
    rules left the message empty.  With all six inputs present and no
    threshold met the result is exactly that line, with count 1; with
    data missing and no threshold met the result is exactly the
    missing-data warning (count 1), without the "no signals" line. *)
Theorem no_signals_line_rule price btc_ath ma200 mayer fear_value fees :
  (shows NO_SIGNAL_LINE (message price btc_ath ma200 mayer fear_value fees)
   = true
   <-> join (appended (buy_signal mayer fear_value) (transfer_signal fees)
               (missing_data price btc_ath ma200 mayer fear_value fees))
       = EmptyString)
  /\ (price <> PNone -> btc_ath <> PNone -> ma200 <> PNone ->
      mayer <> PNone -> fear_value <> PNone -> fees <> PNone ->
      buy_signal mayer fear_value = false ->
      transfer_signal fees = false ->
      check_indexes price btc_ath ma200 mayer fear_value fees
      = (NO_SIGNAL_LINE, 1))
  /\ (missing_data price btc_ath ma200 mayer fear_value fees = true ->
      buy_signal mayer fear_value = false ->
      transfer_signal fees = false ->
      check_indexes price btc_ath ma200 mayer fear_value fees
      = (MISSING_LINE, 1)
      /\ shows NO_SIGNAL_LINE
           (message price btc_ath ma200 mayer fear_value fees) = false).
Proof.
  split; [ | split].
  - rewrite message_report, shows_no_signal, appended_empty.
    destruct (buy_signal _ _), (transfer_signal _), (missing_data _ _ _ _ _ _);
      cbn; intuition congruence.
  - intros Hp Ha Hm Hy Hf Hs Hb Ht.
    assert (Hmiss : missing_data price btc_ath ma200 mayer fear_value fees
                    = false) by (apply missing_data_false; tauto).
    rewrite check_indexes_report, Hb, Ht, Hmiss. reflexivity.
  - intros Hmiss Hb Ht.
    rewrite message_report, check_indexes_report, Hb, Ht, Hmiss.
    split; reflexivity.
Qed.

Lemma no_signals_line_rule_witness :
  check_indexes (PInt 65000) (PInt 73000) (PInt 60000) (decimal 108 100)
    (PInt 50) (obj [("halfHourFee", PInt 20)])
  = (NO_SIGNAL_LINE, 1).
Proof.
  apply (proj1 (proj2 (no_signals_line_rule (PInt 65000) (PInt 73000)
                         (PInt 60000) (decimal 108 100) (PInt 50)
                         (obj [("halfHourFee", PInt 20)]))));
    first [discriminate | reflexivity].
Defined.


(** C7: when Mayer and the fear value are both present (numbers), the
    buy-signal line is in the message if and only if [mayer < 1.0] and
    [fear_value <= 25]; for an integer fear value the second condition is
    the order of the integers, and for a finite float Mayer [+-m * 2^e]
    the first one says that this value is below 1.  Mayer 0.8 with fear
    20 gives the line, Mayer 1.2 with fear 20 does not, whatever the
    other inputs. *)
Theorem buy_signal_rule :
  (forall price btc_ath ma200 mayer fear_value fees,
     isinstance_number mayer = true ->
     isinstance_number fear_value = true ->
     (shows BUY_LINE (message price btc_ath ma200 mayer fear_value fees)
      = true
      <-> num_lt mayer MAYER_BUY_THRESHOLD = true
          /\ num_le fear_value FEAR_GREED_BUY_THRESHOLD = true))
  /\ (forall price btc_ath ma200 mayer fear fees,
       isinstance_number mayer = true ->
       (shows BUY_LINE (message price btc_ath ma200 mayer (PInt fear) fees)
        = true
        <-> num_lt mayer MAYER_BUY_THRESHOLD = true /\ fear <= 25))
  /\ (forall price btc_ath ma200 s m e fear fees,
       (shows BUY_LINE
          (message price btc_ath ma200 (PFloat (S754_finite s m e))
             (PInt fear) fees) = true
        <-> (if 0 <=? e then cond_Zopp s (Zpos m) * 2 ^ e < 1
             else cond_Zopp s (Zpos m) < 2 ^ (- e))
            /\ fear <= 25))
  /\ (forall price btc_ath ma200 fees,
       shows BUY_LINE
         (message price btc_ath ma200 (decimal 8 10) (PInt 20) fees) = true)
  /\ (forall price btc_ath ma200 fees,
       shows BUY_LINE
         (message price btc_ath ma200 (decimal 12 10) (PInt 20) fees)
       = false).
Proof.
  assert (G : forall price btc_ath ma200 mayer fear_value fees,
             isinstance_number mayer = true ->
             isinstance_number fear_value = true ->
             (shows BUY_LINE
                (message price btc_ath ma200 mayer fear_value fees) = true
              <-> num_lt mayer MAYER_BUY_THRESHOLD = true
                  /\ num_le fear_value FEAR_GREED_BUY_THRESHOLD = true)).
  { intros price btc_ath ma200 mayer fear_value fees Hm Hf.
    rewrite message_report, shows_buy. unfold buy_signal.
    rewrite Hm, Hf, andb_true_r, andb_true_iff. reflexivity. }
  split; [exact G | ].
  split; [ | split; [ | split]].
  - intros price btc_ath ma200 mayer fear fees Hm.
    rewrite (G price btc_ath ma200 mayer (PInt fear) fees Hm eq_refl).
    unfold FEAR_GREED_BUY_THRESHOLD. rewrite num_le_int. reflexivity.
  - intros price btc_ath ma200 s m e fear fees.
    rewrite (G price btc_ath ma200 (PFloat (S754_finite s m e)) (PInt fear)
               fees eq_refl eq_refl).
    unfold FEAR_GREED_BUY_THRESHOLD.
    rewrite num_le_int, num_lt_float_one. reflexivity.
  - intros. rewrite message_report, shows_buy. reflexivity.
  - intros. rewrite message_report, shows_buy. reflexivity.
Qed.

Lemma buy_signal_rule_witness :
  shows BUY_LINE
    (message (PInt 65000) (PInt 73000) (PInt 81250) (decimal 8 10) (PInt 20)
       (obj [("halfHourFee", PInt 20)])) = true.
Proof.
  apply (proj1 buy_signal_rule);
    [reflexivity | reflexivity | split; reflexivity].
Defined.


(** C8: when the half-hour fee is present (a number), the transfer-signal
    line is in the message if and only if [half_hour_fee <= 15]; for an
    integer fee this is the order of the integers.  A fee of 10 gives the
    line, a fee of 20 does not, whatever the other inputs. *)
Theorem transfer_signal_rule :
  (forall price btc_ath ma200 mayer fear_value (fees : gmap string pyval),
     isinstance_number (dict_get fees "halfHourFee") = true ->
     (shows TRANSFER_LINE
        (message price btc_ath ma200 mayer fear_value (PDict fees)) = true
      <-> num_le (dict_get fees "halfHourFee") FEE_TRANSFER_THRESHOLD = true))
  /\ (forall price btc_ath ma200 mayer fear_value
        (fees : gmap string pyval) fee,
       fees !! "halfHourFee" = Some (PInt fee) ->
       (shows TRANSFER_LINE
          (message price btc_ath ma200 mayer fear_value (PDict fees)) = true
        <-> fee <= 15))
  /\ (forall price btc_ath ma200 mayer fear_value
        (fees : gmap string pyval),
       fees !! "halfHourFee" = Some (PInt 10) ->
       shows TRANSFER_LINE
         (message price btc_ath ma200 mayer fear_value (PDict fees)) = true)
  /\ (forall price btc_ath ma200 mayer fear_value
        (fees : gmap string pyval),
       fees !! "halfHourFee" = Some (PInt 20) ->
       shows TRANSFER_LINE
         (message price btc_ath ma200 mayer fear_value (PDict fees))
       = false).
Proof.
  assert (G : forall price btc_ath ma200 mayer fear_value
                (fees : gmap string pyval) fee,
             fees !! "halfHourFee" = Some (PInt fee) ->
             shows TRANSFER_LINE
               (message price btc_ath ma200 mayer fear_value (PDict fees))
             = num_le (PInt fee) FEE_TRANSFER_THRESHOLD).
  { intros price btc_ath ma200 mayer fear_value fees fee H.
    rewrite message_report, shows_transfer.
    unfold transfer_signal, half_hour_fee, dict_get. rewrite H.
    reflexivity. }
  split; [ | split; [ | split]].
  - intros price btc_ath ma200 mayer fear_value fees H.
    rewrite message_report, shows_transfer.
    unfold transfer_signal, half_hour_fee. rewrite H. reflexivity.
  - intros price btc_ath ma200 mayer fear_value fees fee H.
    rewrite (G _ _ _ _ _ _ _ H). apply num_le_int.
  - intros price btc_ath ma200 mayer fear_value fees H.
    rewrite (G _ _ _ _ _ _ _ H). reflexivity.
  - intros price btc_ath ma200 mayer fear_value fees H.
    rewrite (G _ _ _ _ _ _ _ H). reflexivity.
Qed.

Lemma transfer_signal_rule_witness :
  shows TRANSFER_LINE
    (message (PInt 65000) (PInt 73000) (PInt 60000) (decimal 108 100)
       (PInt 50) (obj [("halfHourFee", PInt 10)])) = true.
Proof.
  apply (proj1 (proj2 (proj2 transfer_signal_rule))). reflexivity.
Defined.


(* ===================================================================== *)
(** * Fetchers: properties *)
(* ===================================================================== *)

(** Unfolds the statement sequence of a fetcher body. *)
Ltac run :=
  cbv [try_finally_return mbind M_bind mret M_ret lift raise assign modify
       read for_each requests_get json raise_for_status status_code body_json
       FEE_KEYS].

Lemma decoded_None r :
  decoded r = None ->
  r = NoReply
  \/ (exists st js, r = Reply st js /\ http_error st = true)
  \/ (exists st, r = Reply st None).
Proof.
  destruct r as [ | st [v | ]]; cbn; eauto.
  destruct (http_error st) eqn:E; [eauto 6 | discriminate].
Qed.

Lemma decoded_Some r v :
  decoded r = Some v ->
  exists st, r = Reply st (Some v) /\ http_error st = false.
Proof.
  destruct r as [ | st [u | ]]; cbn; try discriminate.
  destruct (http_error st) eqn:E; [discriminate | ].
  intros [= ->]. eauto.
Qed.

(** Without a decoded document every fetcher returns its initial value. *)
Lemma undelivered_absent r :
  decoded r = None ->
  get_btc_price r = PNone /\ get_btc_ath r = PNone
  /\ get_200_day_ma r = PNone /\ get_fear_and_greed r = (PNone, PNone)
  /\ get_transfer_fees r = no_fees.
Proof.
  intros H. apply decoded_None in H.
  destruct H as [-> | [(st & js & -> & E) | (st & ->)]].
  - repeat split.
  - unfold get_btc_price, get_btc_ath, get_200_day_ma, get_fear_and_greed,
      get_transfer_fees. run. unfold http_error in E. rewrite E.
    repeat split.
  - unfold get_btc_price, get_btc_ath, get_200_day_ma, get_fear_and_greed,
      get_transfer_fees. run.
    destruct ((400 <=? st) && (st <? 600)); repeat split.
Qed.

(** The other four fetchers in closed form, for a reply that delivers a
    JSON document: what each returns is read off its last assignment. *)
Lemma get_btc_price_delivered st v :
  http_error st = false ->
  get_btc_price (Reply st (Some v))
  = match v with
    | PDict data =>
        match dict_get data "bitcoin" with
        | PDict btc_data => dict_get btc_data "usd"
        | _ => PNone
        end
    | _ => PNone
    end.
Proof.
  intros E. unfold get_btc_price. run. unfold http_error in E. rewrite E.
  destruct v; try reflexivity.
  destruct (dict_get d "bitcoin"); try reflexivity.
  destruct (isinstance_number _); reflexivity.
Qed.

Lemma get_btc_ath_delivered st v :
  http_error st = false ->
  get_btc_ath (Reply st (Some v))
  = match v with
    | PDict data =>
        match dict_get data "market_data" with
        | PDict market_data =>
            match dict_get market_data "ath" with
            | PDict ath => dict_get ath "usd"
            | _ => PNone
            end
        | _ => PNone
        end
    | _ => PNone
    end.
Proof.
  intros E. unfold get_btc_ath. run. unfold http_error in E. rewrite E.
  destruct v; try reflexivity.
  destruct (dict_get d "market_data"); try reflexivity.
  destruct (dict_get _ "ath"); try reflexivity.
  destruct (isinstance_number _); reflexivity.
Qed.

Lemma get_fear_and_greed_delivered st v :
  http_error st = false ->
  get_fear_and_greed (Reply st (Some v))
  = match v with
    | PDict data =>
        match data !! "data" with
        | Some (PList (PDict fg :: _)) =>
            let value_raw := dict_get fg "value" in
            let label := dict_get fg "value_classification" in
            if is_none value_raw || is_none label then (PNone, label)
            else
              match int_of value_raw with
              | Ok value => (value, label)
              | Raise _ => (PNone, label)
              end
        | _ => (PNone, PNone)
        end
    | _ => (PNone, PNone)
    end.
Proof.
  intros E. unfold get_fear_and_greed. run. unfold http_error in E. rewrite E.
  destruct v; try reflexivity.
  cbn [getitem_str].
  destruct (d !! "data") as [items | ]; [ | reflexivity].
  destruct items as [ | | | | | [ | fg rest] | ]; try reflexivity.
  cbn [isinstance_list truthy negb orb length Nat.eqb getitem_int lookup
       list_lookup].
  destruct fg; try reflexivity.
  cbn [fst snd].
  destruct (is_none _ || is_none _); [reflexivity | ].
  destruct (int_of _); reflexivity.
Qed.

Lemma second_components_length items prices :
  second_components items = Ok prices -> length prices = length items.
Proof.
  revert prices. induction items as [ | item rest IH]; intros prices.
  - intros [= <-]. reflexivity.
  - cbn [second_components]. cbv [mbind res_bind].
    destruct (getitem_int item 1); [ | discriminate].
    destruct (second_components rest) as [ps | ]; [ | discriminate].
    intros [= <-]. cbn. now rewrite (IH ps).
Qed.

Lemma get_200_day_ma_delivered st v :
  http_error st = false ->
  get_200_day_ma (Reply st (Some v))
  = match v with
    | PDict data =>
        match data !! "prices" with
        | Some (PList (item :: rest)) =>
            match
              prices ← second_components (item :: rest);
              total ← sum prices;
              truediv total (PInt (Z.of_nat (length prices)))
            with
            | Ok mean =>
                match math_floor mean with
                | Ok floored => floored
                | Raise _ => mean
                end
            | Raise _ => PNone
            end
        | _ => PNone
        end
    | _ => PNone
    end.
Proof.
  intros E. unfold get_200_day_ma. run. unfold http_error in E. rewrite E.
  destruct v; try reflexivity.
  unfold dict_get.
  destruct (d !! "prices") as [items | ]; [ | reflexivity].
  destruct items as [ | | | | | [ | item rest] | ]; try reflexivity.
  cbn [default from_option id truthy length Nat.eqb negb].
  destruct (second_components (item :: rest)) as [prices | e] eqn:P;
    [ | reflexivity].
  apply second_components_length in P.
  destruct prices as [ | p ps]; [discriminate P | ].
  cbn [length Nat.eqb negb]. cbv [mbind res_bind].
  destruct (sum (p :: ps)) as [total | ]; [ | reflexivity].
  destruct (truediv total _) as [mean | ]; [ | reflexivity].
  destruct (math_floor mean); reflexivity.
Qed.

(** Values that reach the evaluator are typed: the fear value is [None]
    or an [int], the Mayer Multiple is [None] or a [float]. *)
Lemma int_of_int v w : int_of v = Ok w -> exists z, w = PInt z.
Proof.
  destruct v as [ | b | z | [ | | | s m e] | s | | ]; cbn;
    try discriminate; try (intros [= <-]; eauto).
  destruct (parse_int s); [intros [= <-]; eauto | discriminate].
Qed.

Lemma fear_value_none_or_int r :
  fst (get_fear_and_greed r) = PNone
  \/ exists z, fst (get_fear_and_greed r) = PInt z.
Proof.
  destruct (decoded r) as [v | ] eqn:D.
  - apply decoded_Some in D. destruct D as (st & -> & E).
    rewrite (get_fear_and_greed_delivered _ _ E).
    destruct v; auto.
    destruct (d !! "data") as [[ | | | | | [ | [ | | | | | | fg] rest] | ] | ];
      auto.
    cbn zeta. destruct (is_none _ || is_none _); auto.
    destruct (int_of _) as [w | ] eqn:I; auto.
    right. apply int_of_int in I. exact I.
  - left. destruct (undelivered_absent r D) as (_ & _ & _ & -> & _).
    reflexivity.
Qed.

Lemma mayer_none_or_float price moving_average v :
  calculate_mayer_index price moving_average = Ok v ->
  v = PNone \/ exists f, v = PFloat f.
Proof.
  unfold calculate_mayer_index.
  destruct (truthy price && truthy moving_average);
    [ | intros [= <-]; auto].
  unfold truediv.
  destruct (as_number price) as [[x | f] | ],
    (as_number moving_average) as [[y | g] | ];
    cbv [mbind res_bind num_truediv int_to_float]; try discriminate;
    repeat match goal with
           | |- context [if ?c then _ else _] => destruct c
           end;
    try discriminate; intros [= <-]; eauto.
Qed.

(** The fee fetcher in closed form. *)
Lemma get_transfer_fees_delivered st data :
  http_error st = false ->
  get_transfer_fees (Reply st (Some (PDict data))) = fees_from data.
Proof.
  intros H. unfold get_transfer_fees, fees_from, fee_field. run.
  unfold http_error in H. rewrite H.
  destruct (isinstance_number (dict_get data "fastestFee")),
    (isinstance_number (dict_get data "halfHourFee")),
    (isinstance_number (dict_get data "hourFee")); cbn [fst];
    apply map_eq; intros k; rewrite !lookup_insert;
    repeat case_decide; congruence.
Qed.

Lemma get_transfer_fees_cases r :
  get_transfer_fees r = no_fees
  \/ exists data, get_transfer_fees r = fees_from data.
Proof.
  destruct (decoded r) as [v | ] eqn:E.
  - apply decoded_Some in E. destruct E as (st & -> & E).
    destruct v; try (left; unfold get_transfer_fees; run;
                     unfold http_error in E; rewrite E; reflexivity).
    right. eauto using get_transfer_fees_delivered.
  - left. now apply undelivered_absent.
Qed.

Lemma lookup_fees_from data key :
  key ∈ FEE_KEYS -> fees_from data !! key = Some (fee_field data key).
Proof.
  unfold FEE_KEYS. rewrite !elem_of_cons, elem_of_nil.
  intros [-> | [-> | [-> | []]]]; unfold fees_from; by simplify_map_eq.
Qed.

Lemma lookup_no_fees key : key ∈ FEE_KEYS -> no_fees !! key = Some PNone.
Proof.
  unfold FEE_KEYS. rewrite !elem_of_cons, elem_of_nil.
  intros [-> | [-> | [-> | []]]]; unfold no_fees; by simplify_map_eq.
Qed.

Lemma dom_fees_from data :
  dom (fees_from data) = {[ "fastestFee"; "halfHourFee"; "hourFee" ]}.
Proof. unfold fees_from. rewrite !dom_insert_L, dom_empty_L. set_solver. Qed.

Lemma dom_no_fees : dom no_fees = {[ "fastestFee"; "halfHourFee"; "hourFee" ]}.
Proof. unfold no_fees. rewrite !dom_insert_L, dom_empty_L. set_solver. Qed.

Lemma fee_key_of_lookup r key v :
  get_transfer_fees r !! key = Some v -> key ∈ FEE_KEYS.
Proof.
  intros Hv. unfold FEE_KEYS. rewrite !elem_of_cons.
  destruct (decide (key = "fastestFee")) as [ | N1]; [auto | ].
  destruct (decide (key = "halfHourFee")) as [ | N2]; [auto | ].
  destruct (decide (key = "hourFee")) as [ | N3]; [auto | ].
  exfalso. revert Hv.
  destruct (get_transfer_fees_cases r) as [-> | [data ->]];
    unfold no_fees, fees_from;
    rewrite !lookup_insert_ne, lookup_empty by congruence; discriminate.
Qed.

Lemma fee_field_number_or_none data key :
  fee_field data key = PNone \/ isinstance_number (fee_field data key) = true.
Proof.
  unfold fee_field.
  destruct (isinstance_number (dict_get data key)) eqn:E; auto.
Qed.

Lemma get_transfer_fees_lookup r key :
  key ∈ FEE_KEYS ->
  exists v, get_transfer_fees r !! key = Some v
            /\ (v = PNone \/ isinstance_number v = true).
Proof.
  intros Hk. destruct (get_transfer_fees_cases r) as [-> | [data ->]].
  - exists PNone. split; [now apply lookup_no_fees | now left].
  - exists (fee_field data key).
    split; [now apply lookup_fees_from | apply fee_field_number_or_none].
Qed.

(** C1 does not hold for the code.  Each fetcher stores into the variable
    that its [finally: return] hands back before the checks on the stored
    value are over, so a check that fails afterwards leaves the value in
    place:
    - fear/greed, value ["abc"] (the integer coercion raises): the result
      is [(None, "Fear")], a populated label next to an absent value; the
      same happens when only ["value"] is missing;
    - price and all-time high, a string in the numeric field: the string
      itself is returned;
    - moving average, a mean that [math.floor] rejects: the unfloored
      mean is returned. *)
Theorem fetchers_keep_rejected_values :
  get_fear_and_greed
    (Reply 200 (Some (obj [("data",
       PList [obj [("value", PStr "abc");
                   ("value_classification", PStr "Fear")]])])))
  = (PNone, PStr "Fear")
  /\ get_fear_and_greed
       (Reply 200 (Some (obj [("data",
          PList [obj [("value_classification", PStr "Fear")]])])))
     = (PNone, PStr "Fear")
  /\ get_btc_price
       (Reply 200 (Some (obj [("bitcoin", obj [("usd", PStr "n/a")])])))
     = PStr "n/a"
  /\ get_btc_ath
       (Reply 200 (Some (obj [("market_data",
          obj [("ath", obj [("usd", PStr "n/a")])])])))
     = PStr "n/a"
  /\ get_200_day_ma
       (Reply 200 (Some (obj [("prices",
          PList [PList [PInt 1700000000000;
                        PFloat (S754_infinity false)]])])))
     = PFloat (S754_infinity false).
Proof. vm_compute. repeat split. Qed.

(** C6: with a decoded JSON object, each of the three fee fields of the
    result is decided by that field of the response alone: the value when
    it passes [isinstance(value, (int, float))], absent otherwise.  A
    response without [hourFee] and with numeric [fastestFee] and
    [halfHourFee] gives [hourFee] absent and the other two populated. *)
Theorem fee_fields_independent st (data : gmap string pyval) :
  http_error st = false ->
  (forall key, key ∈ FEE_KEYS ->
     get_transfer_fees (Reply st (Some (PDict data))) !! key
     = Some (if isinstance_number (dict_get data key)
             then dict_get data key else PNone))
  /\ (forall fast half,
        data !! "hourFee" = None ->
        data !! "fastestFee" = Some fast ->
        data !! "halfHourFee" = Some half ->
        isinstance_number fast = true ->
        isinstance_number half = true ->
        get_transfer_fees (Reply st (Some (PDict data))) !! "hourFee"
        = Some PNone
        /\ get_transfer_fees (Reply st (Some (PDict data))) !! "fastestFee"
           = Some fast
        /\ get_transfer_fees (Reply st (Some (PDict data))) !! "halfHourFee"
           = Some half).
Proof.
  intros Hst. rewrite (get_transfer_fees_delivered _ _ Hst).
  split.
  - intros key Hk. now apply lookup_fees_from.
  - intros fast half Hh Hf Hm Nf Nm.
    rewrite !lookup_fees_from by (unfold FEE_KEYS; set_solver).
    unfold fee_field, dict_get. rewrite Hh, Hf, Hm. cbn.
    now rewrite Nf, Nm.
Qed.

Lemma fee_fields_independent_witness :
  http_error 200 = false
  /\ get_transfer_fees
       (Reply 200 (Some (obj [("fastestFee", PInt 12);
                              ("halfHourFee", PInt 9)]))) !! "hourFee"
     = Some PNone
  /\ get_transfer_fees
       (Reply 200 (Some (obj [("fastestFee", PInt 12);
                              ("halfHourFee", PInt 9)]))) !! "fastestFee"
     = Some (PInt 12).
Proof.
  split; [reflexivity | ].
  destruct (fee_fields_independent 200
              (list_to_map [("fastestFee", PInt 12); ("halfHourFee", PInt 9)])
              eq_refl) as [_ H].
  destruct (H (PInt 12) (PInt 9)) as (H1 & H2 & _);
    try reflexivity.
  split; [exact H1 | exact H2].
Defined.

(** C9 does not hold for the code.  Two samples of 1e308 are finite and
    well formed, and their mean is 1e308; the float sum overflows to
    infinity, [math.floor] raises on the infinite mean, and the fetcher
    returns the unfloored mean it had already stored: positive infinity,
    which is neither the floor of the mean nor the absence marker.  The
    everyday case works: samples 3 and 4 give 3. *)
Theorem moving_average_overflow_leaks :
  get_200_day_ma
    (Reply 200 (Some (obj [("prices",
       PList [PList [PInt 1700000000000; PFloat (float_of_frac (10 ^ 308) 1)];
              PList [PInt 1700086400000; PFloat (float_of_frac (10 ^ 308) 1)]
             ])])))
  = PFloat (S754_infinity false)
  /\ get_200_day_ma
       (Reply 200 (Some (obj [("prices",
          PList [PList [PInt 1700000000000; PInt 3];
                 PList [PInt 1700086400000; PInt 4]]
             )])))
     = PInt 3.
Proof. vm_compute. split; reflexivity. Qed.

(** C10: the fee fetcher always returns a dictionary with exactly the keys
    [fastestFee], [halfHourFee], [hourFee], each bound to a number or to
    [None]; without a decoded document (request failure, 4xx/5xx status,
    body that is not JSON) or with a document that is no object, all three
    are [None].  Hence the three subscripts of the renderer succeed, the
    mapping is never [None], and the missing-data test of the evaluator
    depends on the other five inputs only. *)
Theorem fee_mapping_total r :
  dom (get_transfer_fees r) = {[ "fastestFee"; "halfHourFee"; "hourFee" ]}
  /\ (forall key v,
        get_transfer_fees r !! key = Some v ->
        v = PNone \/ isinstance_number v = true)
  /\ (decoded r = None -> get_transfer_fees r = no_fees)
  /\ (forall v, decoded r = Some v -> isinstance_dict v = false ->
        get_transfer_fees r = no_fees)
  /\ (forall key, key ∈ FEE_KEYS ->
        exists v, getitem_str (PDict (get_transfer_fees r)) key = Ok v)
  /\ is_none (PDict (get_transfer_fees r)) = false
  /\ (forall price btc_ath ma200 mayer fear_value,
        missing_data price btc_ath ma200 mayer fear_value
          (PDict (get_transfer_fees r))
        = existsb is_none [price; btc_ath; ma200; mayer; fear_value]).
Proof.
  split; [ | split; [ | split; [ | split; [ | split; [ | split]]]]].
  - destruct (get_transfer_fees_cases r) as [-> | [data ->]];
      [apply dom_no_fees | apply dom_fees_from].
  - intros key v Hv.
    assert (Hk : key ∈ FEE_KEYS) by (eapply fee_key_of_lookup; eauto).
    destruct (get_transfer_fees_lookup r key Hk) as (u & Hu & Hnum).
    congruence.
  - intros H. now apply undelivered_absent.
  - intros v Hv Hd. apply decoded_Some in Hv. destruct Hv as (st & -> & E).
    unfold get_transfer_fees. run. unfold http_error in E. rewrite E.
    destruct v; try reflexivity. discriminate Hd.
  - intros key Hk.
    destruct (get_transfer_fees_lookup r key Hk) as (u & Hu & _).
    exists u. cbn. now rewrite Hu.
  - reflexivity.
  - intros. unfold missing_data. cbn [existsb is_none orb]. reflexivity.
Qed.

Lemma fee_mapping_total_witness :
  get_transfer_fees (Reply 503 None) = no_fees.
Proof.
  apply (proj1 (proj2 (proj2 (fee_mapping_total (Reply 503 None))))).
  reflexivity.
Defined.


(* ===================================================================== *)
(** * Derivation: properties *)
(* ===================================================================== *)

(** For a number, truthiness is [!= 0]. *)
Lemma truthy_number v :
  isinstance_number v = true -> truthy v = negb (num_eqb v (PInt 0)).
Proof.
  destruct v as [ | [ | ] | z | f | | | ]; try discriminate; intros _;
    try reflexivity.
  - destruct z; reflexivity.
  - destruct f as [ | [ | ] | | s m e]; try reflexivity.
    unfold num_eqb, num_compare. cbn [as_number xnum_of xnum_compare truthy].
    rewrite Z.mul_0_l.
    assert (Hp : 0 < 2 ^ (e - Z.min e 0))
      by (apply Z.pow_pos_nonneg; lia).
    destruct (Z.compare_spec (cond_Zopp s (Z.pos m) * 2 ^ (e - Z.min e 0)) 0)
      as [E | E | E]; try reflexivity.
    exfalso. destruct s; cbn [cond_Zopp] in E; nia.
Qed.

Lemma num_eqb_number v w : num_eqb v w = true -> isinstance_number v = true.
Proof.
  unfold num_eqb, num_compare.
  destruct v; cbn; try discriminate; reflexivity.
Qed.

(** C3, as the claim states it, fails: a price of 0 is present and the
    moving average 50 is nonzero, [round(0 / 50, 2)] is [0.0], yet the
    Mayer Multiple is absent. *)
Lemma mayer_absent_for_zero_price :
  is_none (PInt 0) = false
  /\ is_none (PInt 50) = false
  /\ truthy (PInt 50) = true
  /\ (q ← truediv (PInt 0) (PInt 50); round2 q) = Ok (PFloat (S754_zero false))
  /\ calculate_mayer_index (PInt 0) (PInt 50) = Ok PNone.
Proof. vm_compute. repeat split. Qed.

(** C3 (amended): the Mayer Multiple equals
    [round(price / moving_average, 2)] whenever both inputs are present
    and both are nonzero, and is absent when either input is absent or
    zero.  [mayer(100, 50) = 2.00], [mayer(100, 0)] is absent and
    [mayer(None, 50)] is absent. *)
Theorem mayer_multiple_rule :
  (forall price moving_average,
     isinstance_number price = true ->
     isinstance_number moving_average = true ->
     num_eqb price (PInt 0) = false ->
     num_eqb moving_average (PInt 0) = false ->
     calculate_mayer_index price moving_average
     = (q ← truediv price moving_average; round2 q))
  /\ (forall price moving_average,
        price = PNone \/ moving_average = PNone
        \/ num_eqb price (PInt 0) = true
        \/ num_eqb moving_average (PInt 0) = true ->
        calculate_mayer_index price moving_average = Ok PNone)
  /\ calculate_mayer_index (PInt 100) (PInt 50) = Ok (decimal 200 100)
  /\ calculate_mayer_index (PInt 100) (PInt 0) = Ok PNone
  /\ calculate_mayer_index PNone (PInt 50) = Ok PNone.
Proof.
  split; [ | split; [ | vm_compute; repeat split]].
  - intros price ma Np Nm Zp Zm. unfold calculate_mayer_index.
    now rewrite (truthy_number _ Np), (truthy_number _ Nm), Zp, Zm.
  - intros price ma H. unfold calculate_mayer_index.
    assert (Hz : forall v, num_eqb v (PInt 0) = true -> truthy v = false).
    { intros v Hv. rewrite (truthy_number _ (num_eqb_number _ _ Hv)).
      now rewrite Hv. }
    destruct H as [-> | [-> | [H | H]]].
    + reflexivity.
    + now rewrite andb_false_r.
    + now rewrite (Hz _ H).
    + now rewrite (Hz _ H), andb_false_r.
Qed.

Lemma mayer_multiple_rule_witness :
  calculate_mayer_index (PInt 65000) (decimal 812505 10)
  = Ok (decimal 8 10).
Proof.
  rewrite (proj1 mayer_multiple_rule (PInt 65000) (decimal 812505 10));
    reflexivity.
Defined.

(* ===================================================================== *)
(** * Main loop: properties *)
(* ===================================================================== *)

Lemma erased_lines_clear n :
  erased_lines (clear_terminal_lines n) = Z.to_nat n.
Proof.
  unfold clear_terminal_lines.
  induction (Z.to_nat n) as [ | k IH]; [reflexivity | ].
  cbn [repeat List.concat app erased_lines]. rewrite IH. reflexivity.
Qed.

Lemma line_count_nonneg price btc_ath ma200 mayer fear_value fees :
  0 <= line_count price btc_ath ma200 mayer fear_value fees.
Proof. rewrite line_count_report. lia. Qed.

(** A cycle in which the derivation succeeds ends by printing the
    evaluator's message and yields the evaluator's line count. *)
Lemma cycle_completes w out lines :
  cycle w = (out, Ok lines) ->
  exists shown mayer fear_value,
    out = (shown ++
           [Println [Lit (message (get_btc_price (price_reply w))
                         (get_btc_ath (info_reply w))
                         (get_200_day_ma (range_reply w))
                         mayer fear_value
                         (PDict (get_transfer_fees (fees_reply w))))]])%list
    /\ lines = line_count (get_btc_price (price_reply w))
                 (get_btc_ath (info_reply w))
                 (get_200_day_ma (range_reply w))
                 mayer fear_value
                 (PDict (get_transfer_fees (fees_reply w))).
Proof.
  unfold cycle.
  cbv [mbind IO_bind mret IO_ret emit eval].
  destruct (calculate_mayer_index _ _) as [mayer | e]; [ | discriminate].
  destruct (get_fear_and_greed _) as [fear_value fear_label].
  destruct (get_transfer_fees_lookup (fees_reply w) "fastestFee")
    as (fast & Hfast & _); [unfold FEE_KEYS; set_solver | ].
  destruct (get_transfer_fees_lookup (fees_reply w) "halfHourFee")
    as (normal & Hnormal & _); [unfold FEE_KEYS; set_solver | ].
  destruct (get_transfer_fees_lookup (fees_reply w) "hourFee")
    as (cheap & Hcheap & _); [unfold FEE_KEYS; set_solver | ].
  cbn [getitem_str]. rewrite Hfast, Hnormal, Hcheap.
  destruct (check_indexes _ _ _ _ _ _) as [warn_message n] eqn:E.
  intros [= <- <-].
  match goal with
  | |- exists shown _ _, ?l = _ /\ _ =>
      exists (removelast l), mayer, fear_value
  end.
  unfold message, line_count. rewrite E. split; reflexivity.
Qed.

Lemma main_loop_redraw w w' rest out lines :
  cycle w = (out, Ok lines) ->
  fst (main_loop (w :: w' :: rest))
  = (out ++ Sleep 1800 :: clear_terminal_lines (lines + 7)
         ++ fst (main_loop (w' :: rest)))%list.
Proof.
  intros H.
  change (main_loop (w :: w' :: rest))
    with (lines ← cycle w;
          emit [Sleep 1800] ;;
          emit (clear_terminal_lines (lines + 7)) ;;
          main_loop (w' :: rest)).
  cbv [mbind IO_bind emit]. rewrite H.
  destruct (main_loop (w' :: rest)) as [out' r]. reflexivity.
Qed.

(** C5: the line count returned by the evaluator is the number of
    advisory lines of the returned message (the message is the
    concatenation of that many advisory lines, one line feed each), and
    whenever the main loop goes on to a further cycle, what it writes
    between the sleep and the next cycle erases exactly that count plus 7
    terminal lines. *)
Theorem line_count_drives_erase :
  (forall price btc_ath ma200 mayer fear_value fees,
     line_count price btc_ath ma200 mayer fear_value fees
     = Z.of_nat (line_feeds (message price btc_ath ma200 mayer fear_value fees))
     /\ exists ls,
          message price btc_ath ma200 mayer fear_value fees = join ls
          /\ Forall (fun l => In l [BUY_LINE; TRANSFER_LINE; MISSING_LINE;
                                    NO_SIGNAL_LINE]) ls
          /\ line_count price btc_ath ma200 mayer fear_value fees
             = Z.of_nat (length ls))
  /\ (forall w w' rest out lines,
        cycle w = (out, Ok lines) ->
        exists shown msg,
          out = (shown ++ [Println [Lit msg]])%list
          /\ lines = Z.of_nat (line_feeds msg)
          /\ fst (main_loop (w :: w' :: rest))
             = (out ++ Sleep 1800 :: clear_terminal_lines (lines + 7)
                    ++ fst (main_loop (w' :: rest)))%list
          /\ Z.of_nat (erased_lines (clear_terminal_lines (lines + 7)))
             = lines + 7).
Proof.
  assert (G : forall price btc_ath ma200 mayer fear_value fees,
             line_count price btc_ath ma200 mayer fear_value fees
             = Z.of_nat (line_feeds
                 (message price btc_ath ma200 mayer fear_value fees))).
  { intros. rewrite line_count_report, message_report.
    now rewrite line_feeds_report. }
  split.
  - intros price btc_ath ma200 mayer fear_value fees.
    split; [apply G | ].
    exists (report (buy_signal mayer fear_value) (transfer_signal fees)
              (missing_data price btc_ath ma200 mayer fear_value fees)).
    split; [apply message_report | ].
    split; [apply report_lines | apply line_count_report].
  - intros w w' rest out lines H.
    destruct (cycle_completes w out lines H)
      as (shown & mayer & fear_value & Hout & Hlines).
    eexists shown, _. split; [exact Hout | ].
    split; [rewrite Hlines; apply G | ].
    split; [now apply main_loop_redraw | ].
    rewrite erased_lines_clear, Z2Nat.id; [reflexivity | ].
    pose proof (line_count_nonneg (get_btc_price (price_reply w))
                  (get_btc_ath (info_reply w))
                  (get_200_day_ma (range_reply w)) mayer fear_value
                  (PDict (get_transfer_fees (fees_reply w)))).
    lia.
Qed.

Lemma line_count_drives_erase_witness :
  fst (main_loop [offline; offline])
  = (fst (cycle offline) ++ Sleep 1800 :: clear_terminal_lines (1 + 7)
       ++ fst (main_loop [offline]))%list.
Proof.
  destruct (proj2 line_count_drives_erase offline offline []
              (fst (cycle offline)) 1 eq_refl)
    as (shown & msg & _ & _ & H & _).
  exact H.
Defined.

(** A rejected value that a fetcher hands back anyway travels on: a price
    field holding a string reaches the division of
    [calculate_mayer_index], whose [TypeError] ends the main loop. *)
Lemma rejected_price_ends_the_loop :
  let w := {| price_reply :=
                Reply 200 (Some (obj [("bitcoin", obj [("usd", PStr "n/a")])]));
              info_reply := NoReply;
              range_reply :=
                Reply 200 (Some (obj [("prices",
                  PList [PList [PInt 1700000000000; PInt 60000]])]));
              fear_greed_reply := NoReply;
              fees_reply := NoReply |} in
  snd (cycle w) = Raise TypeError
  /\ snd (main_loop [w; offline]) = Raise TypeError.
Proof. vm_compute. split; reflexivity. Qed.

(* ===================================================================== *)
(** * The cycle as a whole *)
(* ===================================================================== *)

Lemma getitem_fee r key :
  key ∈ FEE_KEYS ->
  getitem_str (PDict (get_transfer_fees r)) key
  = Ok (dict_get (get_transfer_fees r) key).
Proof.
  intros Hk. destruct (get_transfer_fees_lookup r key Hk) as (v & Hv & _).
  unfold dict_get. cbn [getitem_str]. now rewrite Hv.
Qed.

(** What a cycle writes and yields, in closed form: only the derivation
    can stop it, and then nothing but the status line was written. *)
Lemma cycle_output w :
  cycle w
  = match calculate_mayer_index (get_btc_price (price_reply w))
            (get_200_day_ma (range_reply w)) with
    | Raise e => ([Println [Lit "Fetching data..."]], Raise e)
    | Ok mayer =>
        ((Println [Lit "Fetching data..."] :: clear_terminal_lines 1 ++
          dashboard (get_btc_price (price_reply w))
            (get_btc_ath (info_reply w)) (get_200_day_ma (range_reply w))
            mayer (fst (get_fear_and_greed (fear_greed_reply w)))
            (snd (get_fear_and_greed (fear_greed_reply w)))
            (get_transfer_fees (fees_reply w)) ++
          [Println [Lit (message (get_btc_price (price_reply w))
                           (get_btc_ath (info_reply w))
                           (get_200_day_ma (range_reply w)) mayer
                           (fst (get_fear_and_greed (fear_greed_reply w)))
                           (PDict (get_transfer_fees (fees_reply w))))]])%list,
         Ok (line_count (get_btc_price (price_reply w))
               (get_btc_ath (info_reply w))
               (get_200_day_ma (range_reply w)) mayer
               (fst (get_fear_and_greed (fear_greed_reply w)))
               (PDict (get_transfer_fees (fees_reply w)))))
    end.
Proof.
  unfold cycle. cbv [mbind IO_bind mret IO_ret emit eval].
  destruct (calculate_mayer_index _ _) as [mayer | e]; [ | reflexivity].
  destruct (get_fear_and_greed _) as [fear_value fear_label].
  rewrite !getitem_fee by (unfold FEE_KEYS; set_solver).
  unfold message, line_count.
  destruct (check_indexes _ _ _ _ _ _) as [warn_message n].
  reflexivity.
Qed.

(* ===================================================================== *)
(** * Further properties of the fetchers *)
(* ===================================================================== *)

Lemma truediv_float a b v : truediv a b = Ok v -> exists f, v = PFloat f.
Proof.
  unfold truediv.
  destruct (as_number a) as [[x | f] | ], (as_number b) as [[y | g] | ];
    cbv [mbind res_bind num_truediv int_to_float]; try discriminate;
    repeat match goal with
           | |- context [if ?c then _ else _] => destruct c
           end;
    try discriminate; intros [= <-]; eauto.
Qed.

(** The shapes that the moving-average fetcher can return. *)
Lemma get_200_day_ma_cases r :
  get_200_day_ma r = PNone
  \/ (exists z, get_200_day_ma r = PInt z)
  \/ get_200_day_ma r = PFloat S754_nan
  \/ (exists s, get_200_day_ma r = PFloat (S754_infinity s)).
Proof.
  destruct (decoded r) as [v | ] eqn:D.
  - apply decoded_Some in D. destruct D as (st & -> & E).
    rewrite (get_200_day_ma_delivered _ _ E).
    destruct v; auto.
    destruct (d !! "prices") as [[ | | | | | [ | item rest] | ] | ]; auto.
    destruct (_ ≫= _) as [mean | ] eqn:M; auto.
    assert (exists f, mean = PFloat f) as [f ->].
    { revert M. cbv [mbind res_bind].
      destruct (second_components _); [ | discriminate].
      destruct (sum _); [ | discriminate].
      apply truediv_float. }
    destruct f as [s | s | | s m e]; cbn; eauto 6.
  - left. now apply undelivered_absent.
Qed.

(** X1: the moving-average fetcher returns [None] or a number, never a
    string, a boolean or a container; a float it returns is never finite
    (it is the mean on which [math.floor] raised), so every finite result
    is an [int]. *)
Theorem moving_average_shape r :
  (get_200_day_ma r = PNone \/ exists z, get_200_day_ma r = PInt z)
  \/ (exists f, get_200_day_ma r = PFloat f
                /\ (f = S754_nan \/ exists s, f = S754_infinity s)).
Proof.
  destruct (get_200_day_ma_cases r) as [H | [[z H] | [H | [s H]]]];
    rewrite H.
  - left. now left.
  - left. right. now exists z.
  - right. exists S754_nan. split; [reflexivity | now left].
  - right. exists (S754_infinity s). split; [reflexivity | right; now exists s].
Qed.

Lemma sum_step_raise l e : fold_left sum_step l (Raise e) = Raise e.
Proof. induction l as [ | x l IH]; [reflexivity | exact IH]. Qed.

Lemma sum_rejects l p acc :
  In p l -> isinstance_number p = false ->
  exists e, fold_left sum_step l acc = Raise e.
Proof.
  revert acc. induction l as [ | x l IH]; intros acc Hin Hp;
    [destruct Hin | destruct Hin as [ | Hin]].
  - subst x. cbn [fold_left].
    assert (exists e, sum_step acc p = Raise e) as [e ->].
    { unfold sum_step. destruct acc as [a | e]; cbv [mbind res_bind]; eauto.
      destruct p; try discriminate; cbn; eauto. }
    rewrite sum_step_raise. eauto.
  - cbn [fold_left]. now apply IH.
Qed.

Lemma second_components_In items prices p :
  second_components items = Ok prices -> In p prices ->
  exists item, In item items /\ getitem_int item 1 = Ok p.
Proof.
  revert prices. induction items as [ | item rest IH]; intros prices.
  - intros [= <-] [].
  - cbn [second_components]. cbv [mbind res_bind].
    destruct (getitem_int item 1) as [q | ] eqn:G; [ | discriminate].
    destruct (second_components rest) as [ps | ]; [ | discriminate].
    intros [= <-] [<- | Hin].
    + exists item. split; [now left | assumption].
    + destruct (IH ps eq_refl Hin) as (it & Hit & Hg).
      exists it. split; [now right | assumption].
Qed.

Lemma second_components_complete items item p :
  In item items -> getitem_int item 1 = Ok p ->
  forall prices, second_components items = Ok prices -> In p prices.
Proof.
  induction items as [ | it rest IH]; intros Hin Hg prices;
    [destruct Hin | destruct Hin as [ | Hin]].
  - subst it. cbn [second_components]. cbv [mbind res_bind]. rewrite Hg.
    destruct (second_components rest); [ | discriminate].
    intros [= <-]. now left.
  - cbn [second_components]. cbv [mbind res_bind].
    destruct (getitem_int it 1); [ | discriminate].
    destruct (second_components rest) as [ps | ] eqn:S; [ | discriminate].
    intros [= <-]. right. now apply IH.
Qed.

Lemma second_components_fails items item e :
  In item items -> getitem_int item 1 = Raise e ->
  exists e', second_components items = Raise e'.
Proof.
  induction items as [ | it rest IH]; intros Hin Hg;
    [destruct Hin | destruct Hin as [ | Hin]].
  - subst it. cbn [second_components]. cbv [mbind res_bind]. rewrite Hg. eauto.
  - cbn [second_components]. cbv [mbind res_bind].
    destruct (getitem_int it 1); [ | eauto].
    destruct (IH Hin Hg) as [e' ->]. eauto.
Qed.

(** X2: shapes on which the moving-average fetcher gives [None]: no
    ["prices"] member, a member that is not a list, an empty list, an
    item without an element at index 1, and a price that is not a
    number. *)
Theorem moving_average_rejects st (data : gmap string pyval) :
  http_error st = false ->
  (data !! "prices" = None ->
   get_200_day_ma (Reply st (Some (PDict data))) = PNone)
  /\ (forall v, data !! "prices" = Some v -> isinstance_list v = false ->
        get_200_day_ma (Reply st (Some (PDict data))) = PNone)
  /\ (data !! "prices" = Some (PList []) ->
      get_200_day_ma (Reply st (Some (PDict data))) = PNone)
  /\ (forall items item e,
        data !! "prices" = Some (PList items) ->
        In item items -> getitem_int item 1 = Raise e ->
        get_200_day_ma (Reply st (Some (PDict data))) = PNone)
  /\ (forall items item p,
        data !! "prices" = Some (PList items) ->
        In item items -> getitem_int item 1 = Ok p ->
        isinstance_number p = false ->
        get_200_day_ma (Reply st (Some (PDict data))) = PNone).
Proof.
  intros E. rewrite (get_200_day_ma_delivered _ _ E).
  split; [ | split; [ | split; [ | split]]].
  - now intros ->.
  - intros v -> Hv. destruct v; try reflexivity. discriminate Hv.
  - now intros ->.
  - intros items item e -> Hin Hg.
    destruct items as [ | it rest]; [reflexivity | ].
    destruct (second_components_fails _ _ _ Hin Hg) as [e' ->]. reflexivity.
  - intros items item p -> Hin Hg Hp.
    destruct items as [ | it rest]; [reflexivity | ].
    destruct (second_components (it :: rest)) as [prices | ] eqn:S;
      [ | reflexivity].
    pose proof (second_components_complete _ _ _ Hin Hg _ S) as Hpr.
    cbv [mbind res_bind]. unfold sum.
    destruct (sum_rejects prices p (Ok (NInt 0)) Hpr Hp) as [e' ->].
    reflexivity.
Qed.

Lemma moving_average_rejects_witness :
  get_200_day_ma
    (Reply 200 (Some (obj [("prices",
       PList [PList [PInt 1700000000000; PInt 60000];
              PList [PInt 1700086400000]])])))
  = PNone.
Proof.
  apply (proj1 (proj2 (proj2 (proj2
           (moving_average_rejects 200
              (list_to_map [("prices",
                 PList [PList [PInt 1700000000000; PInt 60000];
                        PList [PInt 1700086400000]])])
              eq_refl))))
           [PList [PInt 1700000000000; PInt 60000];
            PList [PInt 1700086400000]]
           (PList [PInt 1700086400000]) IndexError);
    [reflexivity | right; left; reflexivity | reflexivity].
Defined.

Lemma second_components_series samples :
  second_components
    (map (fun tp : pyval * pyval => PList [fst tp; snd tp]) samples)
  = Ok (map snd samples).
Proof.
  induction samples as [ | [t p] rest IH]; [reflexivity | ].
  cbn [map second_components]. cbv [mbind res_bind].
  cbn [getitem_int lookup list_lookup fst snd]. now rewrite IH.
Qed.

(** X3: the moving average depends on the prices alone: two documents
    whose ["prices"] series of (timestamp, price) pairs hold the same
    prices in the same order give the same result, whatever the
    timestamps, the other members and the status code. *)
Theorem moving_average_ignores_timestamps st st'
    (data data' : gmap string pyval) samples samples' :
  http_error st = false -> http_error st' = false ->
  data !! "prices" = Some (series samples) ->
  data' !! "prices" = Some (series samples') ->
  map snd samples = map snd samples' ->
  get_200_day_ma (Reply st (Some (PDict data)))
  = get_200_day_ma (Reply st' (Some (PDict data'))).
Proof.
  intros E E' D D' H.
  rewrite (get_200_day_ma_delivered _ _ E), (get_200_day_ma_delivered _ _ E').
  rewrite D, D'. unfold series.
  destruct samples as [ | s1 r1], samples' as [ | s2 r2];
    try discriminate H; [reflexivity | ].
  cbn [map] in *.
  change (PList [fst s1; snd s1]
            :: map (fun tp : pyval * pyval => PList [fst tp; snd tp]) r1)
    with (map (fun tp : pyval * pyval => PList [fst tp; snd tp]) (s1 :: r1)).
  change (PList [fst s2; snd s2]
            :: map (fun tp : pyval * pyval => PList [fst tp; snd tp]) r2)
    with (map (fun tp : pyval * pyval => PList [fst tp; snd tp]) (s2 :: r2)).
  rewrite !second_components_series. cbn [map]. now rewrite H.
Qed.

Lemma moving_average_ignores_timestamps_witness :
  get_200_day_ma
    (Reply 200 (Some (obj [("prices",
       series [(PInt 1700000000000, PInt 3); (PInt 1700086400000, PInt 4)])])))
  = get_200_day_ma
      (Reply 203 (Some (obj [("prices",
         series [(PInt 1, PInt 3); (PStr "noon", PInt 4)]);
         ("total_volumes", PList [])]))).
Proof.
  apply (moving_average_ignores_timestamps 200 203
           (list_to_map [("prices",
              series [(PInt 1700000000000, PInt 3);
                      (PInt 1700086400000, PInt 4)])])
           (list_to_map [("prices",
              series [(PInt 1, PInt 3); (PStr "noon", PInt 4)]);
              ("total_volumes", PList [])])
           [(PInt 1700000000000, PInt 3); (PInt 1700086400000, PInt 4)]
           [(PInt 1, PInt 3); (PStr "noon", PInt 4)]);
    reflexivity.
Defined.

(** X4: a request that delivers no document leaves every fetcher at its
    initial value: no response at all, a response whose status is 4xx or
    5xx (whatever its body), or a body that is not JSON. *)
Theorem fetchers_absent_without_document r :
  r = NoReply
  \/ (exists st js, r = Reply st js /\ 400 <= st < 600)
  \/ (exists st, r = Reply st None) ->
  get_btc_price r = PNone
  /\ get_btc_ath r = PNone
  /\ get_200_day_ma r = PNone
  /\ get_fear_and_greed r = (PNone, PNone).
Proof.
  intros H.
  assert (D : decoded r = None).
  { destruct H as [-> | [(st & js & -> & Hst) | (st & ->)]]; cbn;
      try reflexivity.
    destruct js; [ | reflexivity].
    replace (http_error st) with true; [reflexivity | ].
    unfold http_error. symmetry. apply andb_true_iff. split; lia. }
  destruct (undelivered_absent r D) as (H1 & H2 & H3 & H4 & _). auto.
Qed.

Lemma fetchers_absent_without_document_witness :
  get_btc_ath
    (Reply 429 (Some (obj [("market_data",
       obj [("ath", obj [("usd", PInt 73000)])])])))
  = PNone.
Proof.
  apply (fetchers_absent_without_document
           (Reply 429 (Some (obj [("market_data",
              obj [("ath", obj [("usd", PInt 73000)])])])))).
  right. left. eexists _, _. split; [reflexivity | lia].
Defined.

(** X5: only the status codes 400 to 599 are rejected: with any other
    code, 1xx and 3xx included, each fetcher treats the body exactly as
    it does under status 200. *)
Theorem status_outside_4xx_5xx_accepted st v :
  ~ (400 <= st < 600) ->
  get_btc_price (Reply st (Some v)) = get_btc_price (Reply 200 (Some v))
  /\ get_btc_ath (Reply st (Some v)) = get_btc_ath (Reply 200 (Some v))
  /\ get_200_day_ma (Reply st (Some v))
     = get_200_day_ma (Reply 200 (Some v))
  /\ get_fear_and_greed (Reply st (Some v))
     = get_fear_and_greed (Reply 200 (Some v))
  /\ get_transfer_fees (Reply st (Some v))
     = get_transfer_fees (Reply 200 (Some v)).
Proof.
  intros H.
  assert (E : http_error st = false).
  { unfold http_error. apply andb_false_iff.
    destruct (Z.leb_spec 400 st), (Z.ltb_spec st 600); auto. lia. }
  rewrite (get_btc_price_delivered _ _ E), (get_btc_ath_delivered _ _ E),
    (get_200_day_ma_delivered _ _ E), (get_fear_and_greed_delivered _ _ E).
  rewrite (get_btc_price_delivered 200), (get_btc_ath_delivered 200),
    (get_200_day_ma_delivered 200), (get_fear_and_greed_delivered 200)
    by reflexivity.
  repeat (split; [reflexivity | ]).
  unfold get_transfer_fees. run. unfold http_error in E. rewrite E.
  reflexivity.
Qed.

Lemma status_outside_4xx_5xx_accepted_witness :
  get_btc_price (Reply 302 (Some (obj [("bitcoin", obj [("usd", PInt 65000)])])))
  = PInt 65000.
Proof.
  rewrite (proj1 (status_outside_4xx_5xx_accepted 302
                    (obj [("bitcoin", obj [("usd", PInt 65000)])])
                    ltac:(lia))).
  reflexivity.
Defined.

(** X6: the all-time-high fetcher reads [market_data.ath.usd]: a number
    found there is returned as it is, and a document in which the
    response, [market_data] or [ath] is not an object, or in which [usd]
    is missing, gives [None]. *)
Theorem ath_extraction st :
  http_error st = false ->
  (forall (data market_data ath : gmap string pyval) v,
     data !! "market_data" = Some (PDict market_data) ->
     market_data !! "ath" = Some (PDict ath) ->
     ath !! "usd" = Some v ->
     isinstance_number v = true ->
     get_btc_ath (Reply st (Some (PDict data))) = v)
  /\ (forall v, isinstance_dict v = false ->
        get_btc_ath (Reply st (Some v)) = PNone)
  /\ (forall data : gmap string pyval,
        isinstance_dict (dict_get data "market_data") = false ->
        get_btc_ath (Reply st (Some (PDict data))) = PNone)
  /\ (forall data market_data : gmap string pyval,
        data !! "market_data" = Some (PDict market_data) ->
        isinstance_dict (dict_get market_data "ath") = false ->
        get_btc_ath (Reply st (Some (PDict data))) = PNone)
  /\ (forall data market_data ath : gmap string pyval,
        data !! "market_data" = Some (PDict market_data) ->
        market_data !! "ath" = Some (PDict ath) ->
        ath !! "usd" = None ->
        get_btc_ath (Reply st (Some (PDict data))) = PNone).
Proof.
  intros E. split; [ | split; [ | split; [ | split]]].
  - intros data md ath v H1 H2 H3 _.
    rewrite (get_btc_ath_delivered _ _ E). unfold dict_get.
    now rewrite H1; cbn; rewrite H2; cbn; rewrite H3.
  - intros v Hv. rewrite (get_btc_ath_delivered _ _ E).
    destruct v; try reflexivity. discriminate Hv.
  - intros data H. rewrite (get_btc_ath_delivered _ _ E).
    destruct (dict_get data "market_data"); try reflexivity. discriminate H.
  - intros data md H1 H. rewrite (get_btc_ath_delivered _ _ E).
    unfold dict_get at 1. rewrite H1. cbn [default from_option id].
    destruct (dict_get md "ath"); try reflexivity. discriminate H.
  - intros data md ath H1 H2 H3. rewrite (get_btc_ath_delivered _ _ E).
    unfold dict_get. now rewrite H1; cbn; rewrite H2; cbn; rewrite H3.
Qed.

Lemma ath_extraction_witness :
  get_btc_ath
    (Reply 200 (Some (obj [("id", PStr "bitcoin");
       ("market_data", obj [("ath", obj [("usd", PInt 73738);
                                          ("eur", PInt 67405)])])])))
  = PInt 73738.
Proof.
  apply (proj1 (ath_extraction 200 eq_refl)
           (list_to_map [("id", PStr "bitcoin");
              ("market_data", obj [("ath", obj [("usd", PInt 73738);
                                                 ("eur", PInt 67405)])])])
           (list_to_map [("ath", obj [("usd", PInt 73738);
                                      ("eur", PInt 67405)])])
           (list_to_map [("usd", PInt 73738); ("eur", PInt 67405)]));
    reflexivity.
Defined.

(** X7: the price fetcher reads [bitcoin.usd]: a number found there is
    returned as it is, and a document in which the response or [bitcoin]
    is not an object, or in which [usd] is missing, gives [None]. *)
Theorem price_extraction st :
  http_error st = false ->
  (forall (data btc_data : gmap string pyval) v,
     data !! "bitcoin" = Some (PDict btc_data) ->
     btc_data !! "usd" = Some v ->
     isinstance_number v = true ->
     get_btc_price (Reply st (Some (PDict data))) = v)
  /\ (forall v, isinstance_dict v = false ->
        get_btc_price (Reply st (Some v)) = PNone)
  /\ (forall data : gmap string pyval,
        isinstance_dict (dict_get data "bitcoin") = false ->
        get_btc_price (Reply st (Some (PDict data))) = PNone)
  /\ (forall data btc_data : gmap string pyval,
        data !! "bitcoin" = Some (PDict btc_data) ->
        btc_data !! "usd" = None ->
        get_btc_price (Reply st (Some (PDict data))) = PNone).
Proof.
  intros E. split; [ | split; [ | split]].
  - intros data btc v H1 H2 _.
    rewrite (get_btc_price_delivered _ _ E). unfold dict_get.
    now rewrite H1; cbn; rewrite H2.
  - intros v Hv. rewrite (get_btc_price_delivered _ _ E).
    destruct v; try reflexivity. discriminate Hv.
  - intros data H. rewrite (get_btc_price_delivered _ _ E).
    destruct (dict_get data "bitcoin"); try reflexivity. discriminate H.
  - intros data btc H1 H2. rewrite (get_btc_price_delivered _ _ E).
    unfold dict_get. now rewrite H1; cbn; rewrite H2.
Qed.

Lemma price_extraction_witness :
  get_btc_price
    (Reply 200 (Some (obj [("bitcoin", obj [("usd", decimal 6512345 100)])])))
  = decimal 6512345 100.
Proof.
  apply (proj1 (price_extraction 200 eq_refl)
           (list_to_map [("bitcoin", obj [("usd", decimal 6512345 100)])])
           (list_to_map [("usd", decimal 6512345 100)]));
    reflexivity.
Defined.

(** X8: the fear/greed fetcher never returns a value without a label: its
    value is [None], or it is an [int] and the label is not [None]. *)
Theorem fear_value_comes_with_label r :
  fst (get_fear_and_greed r) = PNone
  \/ (exists z, fst (get_fear_and_greed r) = PInt z)
     /\ snd (get_fear_and_greed r) <> PNone.
Proof.
  destruct (decoded r) as [v | ] eqn:D.
  - apply decoded_Some in D. destruct D as (st & -> & E).
    rewrite (get_fear_and_greed_delivered _ _ E).
    destruct v; auto.
    destruct (d !! "data") as [[ | | | | | [ | [ | | | | | | fg] rest] | ] | ];
      auto.
    cbn zeta.
    destruct (is_none (dict_get fg "value")) eqn:V; [auto | ].
    destruct (is_none (dict_get fg "value_classification")) eqn:L; [auto | ].
    cbn [orb].
    destruct (int_of _) as [w | ] eqn:I; [ | auto].
    right. cbn [fst snd]. split; [now apply int_of_int in I | ].
    intros C. rewrite C in L. discriminate L.
  - left. destruct (undelivered_absent r D) as (_ & _ & _ & -> & _).
    reflexivity.
Qed.

(** X9: the fear/greed fetcher looks at the first element of [data]
    only (the others do not change the result); an integer value with a
    label present comes back unchanged, and a document without [data],
    with a [data] that is not a list or is empty, or whose first element
    is not an object gives [(None, None)]. *)
Theorem fear_greed_first_item st (data : gmap string pyval) :
  http_error st = false ->
  (forall first rest rest' (data' : gmap string pyval),
     data !! "data" = Some (PList (first :: rest)) ->
     data' !! "data" = Some (PList (first :: rest')) ->
     get_fear_and_greed (Reply st (Some (PDict data)))
     = get_fear_and_greed (Reply st (Some (PDict data'))))
  /\ (forall (fg : gmap string pyval) rest z label,
        data !! "data" = Some (PList (PDict fg :: rest)) ->
        fg !! "value" = Some (PInt z) ->
        fg !! "value_classification" = Some label ->
        label <> PNone ->
        get_fear_and_greed (Reply st (Some (PDict data))) = (PInt z, label))
  /\ (data !! "data" = None ->
      get_fear_and_greed (Reply st (Some (PDict data))) = (PNone, PNone))
  /\ (forall v, data !! "data" = Some v ->
        isinstance_list v = false \/ v = PList [] ->
        get_fear_and_greed (Reply st (Some (PDict data))) = (PNone, PNone))
  /\ (forall first rest,
        data !! "data" = Some (PList (first :: rest)) ->
        isinstance_dict first = false ->
        get_fear_and_greed (Reply st (Some (PDict data))) = (PNone, PNone)).
Proof.
  intros E. split; [ | split; [ | split; [ | split]]].
  - intros first rest rest' data' H H'.
    rewrite !(get_fear_and_greed_delivered _ _ E), H, H'.
    destruct first; reflexivity.
  - intros fg rest z label H Hv Hl Hn.
    rewrite (get_fear_and_greed_delivered _ _ E), H. unfold dict_get.
    rewrite Hv, Hl. cbn.
    destruct label; try reflexivity. congruence.
  - intros H. now rewrite (get_fear_and_greed_delivered _ _ E), H.
  - intros v H [Hv | ->]; rewrite (get_fear_and_greed_delivered _ _ E), H;
      [ | reflexivity].
    destruct v; try reflexivity. discriminate Hv.
  - intros first rest H Hf.
    rewrite (get_fear_and_greed_delivered _ _ E), H.
    destruct first; try reflexivity. discriminate Hf.
Qed.

Lemma fear_greed_first_item_witness :
  get_fear_and_greed
    (Reply 200 (Some (obj [("name", PStr "Fear and Greed Index");
       ("data", PList [obj [("value", PInt 25);
                            ("value_classification", PStr "Extreme Fear")];
                       PStr "older"])])))
  = (PInt 25, PStr "Extreme Fear").
Proof.
  apply (proj1 (proj2 (fear_greed_first_item 200
           (list_to_map [("name", PStr "Fear and Greed Index");
              ("data", PList [obj [("value", PInt 25);
                                   ("value_classification",
                                    PStr "Extreme Fear")];
                              PStr "older"])])
           eq_refl))
           (list_to_map [("value", PInt 25);
                         ("value_classification", PStr "Extreme Fear")])
           [PStr "older"]);
    first [reflexivity | discriminate].
Defined.

(** X10: the fee fetcher reads its three fields and nothing else: two
    response objects that agree on [fastestFee], [halfHourFee] and
    [hourFee] give the same mapping, whatever other members they hold. *)
Theorem fees_ignore_other_members st (data data' : gmap string pyval) :
  http_error st = false ->
  (forall key, key ∈ FEE_KEYS -> data !! key = data' !! key) ->
  get_transfer_fees (Reply st (Some (PDict data)))
  = get_transfer_fees (Reply st (Some (PDict data'))).
Proof.
  intros E H. rewrite !(get_transfer_fees_delivered _ _ E).
  unfold fees_from, fee_field, dict_get.
  rewrite !H by (unfold FEE_KEYS; set_solver). reflexivity.
Qed.

Lemma fees_ignore_other_members_witness :
  get_transfer_fees
    (Reply 200 (Some (obj [("fastestFee", PInt 12); ("halfHourFee", PInt 9);
                           ("hourFee", PInt 7); ("economyFee", PInt 4);
                           ("minimumFee", PInt 2)])))
  = get_transfer_fees
      (Reply 200 (Some (obj [("fastestFee", PInt 12);
                             ("halfHourFee", PInt 9); ("hourFee", PInt 7)]))).
Proof.
  apply (fees_ignore_other_members 200
           (list_to_map [("fastestFee", PInt 12); ("halfHourFee", PInt 9);
                         ("hourFee", PInt 7); ("economyFee", PInt 4);
                         ("minimumFee", PInt 2)])
           (list_to_map [("fastestFee", PInt 12); ("halfHourFee", PInt 9);
                         ("hourFee", PInt 7)]) eq_refl).
  intros key Hk. unfold FEE_KEYS in Hk.
  rewrite !elem_of_cons, elem_of_nil in Hk.
  destruct Hk as [-> | [-> | [-> | []]]]; reflexivity.
Defined.

(* ===================================================================== *)
(** * Integers converted to binary64 are not zero *)
(* ===================================================================== *)

(** Bits of a positive number. *)
Lemma digits2_pos_bounds m :
  2 ^ (Zpos (digits2_pos m) - 1) <= Zpos m < 2 ^ Zpos (digits2_pos m).
Proof.
  induction m as [m IH | m IH | ]; cbn [digits2_pos].
  - rewrite Pos2Z.inj_succ.
    replace (Z.succ (Zpos (digits2_pos m)) - 1) with (Zpos (digits2_pos m)) by lia.
    rewrite Z.pow_succ_r by lia.
    assert (Zpos (digits2_pos m) = (Zpos (digits2_pos m) - 1) + 1) as E by lia.
    rewrite E at 1. rewrite Z.pow_add_r by lia. lia.
  - rewrite Pos2Z.inj_succ.
    replace (Z.succ (Zpos (digits2_pos m)) - 1) with (Zpos (digits2_pos m)) by lia.
    rewrite Z.pow_succ_r by lia.
    assert (Zpos (digits2_pos m) = (Zpos (digits2_pos m) - 1) + 1) as E by lia.
    rewrite E at 1. rewrite Z.pow_add_r by lia. lia.
  - cbn. lia.
Qed.

(** One right shift halves the mantissa; [p] of them divide by [2^p]. *)
Lemma shr_1_m mrs : 0 <= shr_m mrs -> shr_m (shr_1 mrs) = shr_m mrs / 2.
Proof.
  destruct mrs as [m r s]. cbn [shr_m shr_1]. intros H.
  destruct m as [ | [p | p | ] | p]; cbn [shr_m]; try lia.
  - reflexivity.
  - apply (Z.div_unique _ 2 _ 1); lia.
  - apply (Z.div_unique _ 2 _ 0); lia.
  - reflexivity.
Qed.

Lemma pow2_xO p : 2 ^ Zpos p~0 = 2 ^ Zpos p * 2 ^ Zpos p.
Proof. rewrite <- Z.pow_add_r by lia. f_equal. lia. Qed.

Lemma pow2_xI p : 2 ^ Zpos p~1 = 2 * (2 ^ Zpos p * 2 ^ Zpos p).
Proof.
  rewrite <- Z.pow_add_r, <- Z.pow_succ_r by lia. f_equal. lia.
Qed.

Lemma iter_shr_1_m p : forall mrs,
  0 <= shr_m mrs ->
  shr_m (SpecFloat.iter_pos shr_1 p mrs) = shr_m mrs / 2 ^ Zpos p.
Proof.
  assert (Hp : forall q, 0 < 2 ^ Zpos q) by (intros; apply Z.pow_pos_nonneg; lia).
  induction p as [p IH | p IH | ]; intros mrs H; cbn [SpecFloat.iter_pos].
  - assert (H1 : 0 <= shr_m (shr_1 mrs))
      by (rewrite shr_1_m by assumption; apply Z.div_pos; lia).
    assert (H2 : 0 <= shr_m (SpecFloat.iter_pos shr_1 p (shr_1 mrs)))
      by (rewrite IH by assumption; apply Z.div_pos; auto).
    rewrite IH, IH, shr_1_m by assumption.
    pose proof (Hp p).
    rewrite !Z.div_div by lia.
    rewrite pow2_xI. f_equal; try ring.
  - assert (H2 : 0 <= shr_m (SpecFloat.iter_pos shr_1 p mrs))
      by (rewrite IH by assumption; apply Z.div_pos; auto).
    rewrite IH, IH by assumption.
    pose proof (Hp p).
    rewrite !Z.div_div by lia.
    rewrite pow2_xO. f_equal; try ring.
  - rewrite shr_1_m by assumption. reflexivity.
Qed.

(** Shifting a positive mantissa by fewer bits than it has leaves a
    positive mantissa. *)
Lemma shr_positive m r s e n :
  0 < m -> n < Zdigits2 m -> 0 < shr_m (fst (shr (Build_shr_record m r s) e n)).
Proof.
  intros Hm Hn. unfold shr.
  destruct n as [ | p | p]; cbn [fst shr_m]; try assumption.
  rewrite iter_shr_1_m by (cbn; lia). cbn [shr_m].
  destruct m as [ | q | q]; try lia. cbn [Zdigits2] in Hn.
  pose proof (digits2_pos_bounds q) as [Hlo _].
  apply Z.div_str_pos. split; [apply Z.pow_pos_nonneg; lia | ].
  apply Z.le_trans with (2 ^ (Zpos (digits2_pos q) - 1)); [ | assumption].
  apply Z.pow_le_mono_r; lia.
Qed.

Lemma shr_fexp_positive m e l :
  0 < m -> emin prec emax < e ->
  0 < shr_m (fst (shr_fexp prec emax m e l)).
Proof.
  intros Hm He. unfold shr_fexp.
  destruct l as [ | [ | | ]]; cbn [shr_record_of_loc];
    apply shr_positive; try assumption;
    unfold fexp; destruct m as [ | q | q]; try lia; cbn [Zdigits2];
    unfold prec, emax, emin in *; lia.
Qed.

Lemma shr_fexp_exponent m e l :
  e <= snd (shr_fexp prec emax m e l).
Proof.
  unfold shr_fexp, shr.
  destruct (fexp prec emax (Zdigits2 m + e) - e) eqn:E; cbn [snd]; lia.
Qed.

Lemma round_nearest_even_ge m l : m <= round_nearest_even m l.
Proof.
  destruct l as [ | [ | | ]]; cbn [round_nearest_even]; try lia.
  destruct (Z.even m); lia.
Qed.

Lemma binary_round_aux_nonzero sx mx ex lx :
  0 < mx -> emin prec emax < ex ->
  is_zero (binary_round_aux prec emax sx mx ex lx) = false.
Proof.
  intros Hm He. unfold binary_round_aux.
  pose proof (shr_fexp_positive mx ex lx Hm He) as H1.
  pose proof (shr_fexp_exponent mx ex lx) as E1.
  destruct (shr_fexp prec emax mx ex lx) as [mrs' e']. cbn [fst snd] in *.
  pose proof (round_nearest_even_ge (shr_m mrs') (loc_of_shr_record mrs')) as G.
  assert (H2 : 0 < round_nearest_even (shr_m mrs') (loc_of_shr_record mrs')) by lia.
  assert (He' : emin prec emax < e') by lia.
  pose proof (shr_fexp_positive _ e' loc_Exact H2 He') as H3.
  destruct (shr_fexp prec emax _ e' loc_Exact) as [mrs'' e'']. cbn [fst] in H3.
  destruct (shr_m mrs''); try lia.
  destruct (_ <=? _); reflexivity.
Qed.

(** Converting a nonzero integer never gives a float zero. *)
Lemma float_of_Z_nonzero z : z <> 0 -> is_zero (float_of_Z z) = false.
Proof.
  intros Hz. unfold float_of_Z, binary_normalize, binary_round.
  assert (G : forall s p,
             is_zero (let '(mz, ez) :=
                        shl_align p 0 (fexp prec emax (Zpos (digits2_pos p) + 0)) in
                      binary_round_aux prec emax s (Zpos mz) ez loc_Exact) = false).
  { intros s p. unfold shl_align.
    assert (Hf : -52 <= fexp prec emax (Zpos (digits2_pos p) + 0))
      by (unfold fexp, prec, emax, emin; lia).
    set (F := fexp prec emax (Zpos (digits2_pos p) + 0)) in *.
    assert (Hm : emin prec emax < -52) by (unfold emin, prec, emax; lia).
    destruct (F - 0) eqn:E; apply binary_round_aux_nonzero; lia. }
  destruct z as [ | p | p]; [congruence | apply G | apply G].
Qed.

(* ===================================================================== *)
(** * Further properties of the derivation and the evaluator *)
(* ===================================================================== *)

Lemma truthy_nonzero_divisor x y e :
  truthy (of_number y) = true -> num_truediv x y = Raise e ->
  e = OverflowError.
Proof.
  intros Ht. destruct x as [a | f], y as [b | g];
    cbn [of_number truthy] in Ht; cbv [num_truediv mbind res_bind int_to_float].
  - rewrite (negb_true_iff _) in Ht. rewrite Ht.
    destruct (is_inf _); [ | discriminate]. now intros [= <-].
  - destruct (is_inf (float_of_Z a)); [now intros [= <-] | ].
    destruct g; try discriminate Ht; discriminate.
  - apply negb_true_iff, Z.eqb_neq in Ht.
    destruct (is_inf (float_of_Z b)); [now intros [= <-] | ].
    rewrite (float_of_Z_nonzero _ Ht). discriminate.
  - destruct g; try discriminate Ht; discriminate.
Qed.

Lemma truthy_as_number v n :
  as_number v = Some n -> truthy (of_number n) = truthy v.
Proof.
  destruct v as [ | [ | ] | z | f | | | ]; cbn; try discriminate;
    intros [= <-]; reflexivity.
Qed.

(** The exceptions of the derivation. *)
Lemma calculate_mayer_index_raises price moving_average e :
  calculate_mayer_index price moving_average = Raise e ->
  (e = TypeError \/ e = OverflowError)
  /\ (isinstance_number price = true ->
      isinstance_number moving_average = true -> e = OverflowError)
  /\ (e = TypeError ->
      isinstance_number price = false
      \/ isinstance_number moving_average = false).
Proof.
  unfold calculate_mayer_index.
  destruct (truthy price && truthy moving_average) eqn:T; [ | discriminate].
  apply andb_true_iff in T. destruct T as [Tp Tm].
  unfold truediv.
  destruct (as_number price) as [x | ] eqn:Ap.
  - destruct (as_number moving_average) as [y | ] eqn:Am.
    + cbv [mbind res_bind].
      destruct (num_truediv x y) as [q | e'] eqn:Q.
      * destruct q; discriminate.
      * intros [= <-].
        rewrite <- (truthy_as_number _ _ Am) in Tm.
        pose proof (truthy_nonzero_divisor _ _ _ Tm Q) as ->.
        repeat split; auto. discriminate.
    + intros [= <-]. repeat split; auto.
      * intros _ H. destruct moving_average; discriminate.
      * intros _. right. destruct moving_average; try discriminate; reflexivity.
  - intros [= <-]. repeat split; auto.
    + intros H. destruct price; discriminate.
    + intros _. left. destruct price; try discriminate; reflexivity.
Qed.


(** X11: the derivation never divides by zero: the truthiness guard keeps
    every zero divisor out, also a nonzero integer converted to a float.
    When [calculate_mayer_index] raises, the exception is a [TypeError]
    (an operand that is no number) or an [OverflowError] (a quotient or
    an integer beyond the float range), and with two numbers it is the
    [OverflowError]. *)
Theorem mayer_failures price moving_average :
  calculate_mayer_index price moving_average <> Raise ZeroDivisionError
  /\ (forall e,
        calculate_mayer_index price moving_average = Raise e ->
        e = TypeError \/ e = OverflowError)
  /\ (forall e,
        isinstance_number price = true ->
        isinstance_number moving_average = true ->
        calculate_mayer_index price moving_average = Raise e ->
        e = OverflowError).
Proof.
  split; [ | split].
  - intros H. destruct (calculate_mayer_index_raises _ _ _ H) as ([C | C] & _);
      discriminate C.
  - intros e H. now destruct (calculate_mayer_index_raises _ _ _ H).
  - intros e Hp Hm H.
    destruct (calculate_mayer_index_raises _ _ _ H) as (_ & G & _). auto.
Qed.

Lemma mayer_failures_witness :
  calculate_mayer_index (PInt (10 ^ 400)) (PInt 3) = Raise OverflowError.
Proof.
  destruct (calculate_mayer_index (PInt (10 ^ 400)) (PInt 3)) as [v | e] eqn:H.
  - vm_compute in H. discriminate H.
  - f_equal.
    exact (proj2 (proj2 (mayer_failures (PInt (10 ^ 400)) (PInt 3)))
             e eq_refl eq_refl H).
Defined.

(** X12: a cycle whose price or moving average is absent or zero has no
    Mayer Multiple: the derivation returns [None] (it does not raise), so
    the message carries the missing-data warning and no buy signal,
    whatever the other values are. *)
Theorem absent_mayer_warns price btc_ath ma200 fear_value fees :
  truthy price = false \/ truthy ma200 = false ->
  calculate_mayer_index price ma200 = Ok PNone
  /\ forall mayer,
       calculate_mayer_index price ma200 = Ok mayer ->
       shows MISSING_LINE
         (message price btc_ath ma200 mayer fear_value fees) = true
       /\ shows BUY_LINE
            (message price btc_ath ma200 mayer fear_value fees) = false.
Proof.
  intros T.
  assert (M : calculate_mayer_index price ma200 = Ok PNone).
  { unfold calculate_mayer_index.
    replace (truthy price && truthy ma200) with false; [reflexivity | ].
    symmetry. apply andb_false_iff. exact T. }
  split; [exact M | ].
  intros mayer H. rewrite M in H. injection H as <-.
  rewrite message_report, shows_missing, shows_buy.
  split; [ | reflexivity].
  unfold missing_data. cbn [existsb is_none].
  now rewrite !orb_true_r.
Qed.

Lemma absent_mayer_warns_witness :
  calculate_mayer_index (PInt 0) (PInt 60000) = Ok PNone
  /\ shows MISSING_LINE
       (message (PInt 0) (PInt 73000) (PInt 60000) PNone (PInt 20)
          (obj [("halfHourFee", PInt 10)])) = true.
Proof.
  destruct (absent_mayer_warns (PInt 0) (PInt 73000) (PInt 60000) (PInt 20)
              (obj [("halfHourFee", PInt 10)]) (or_introl eq_refl))
    as [M H].
  split; [exact M | ].
  exact (proj1 (H PNone M)).
Defined.

(** X13: the evaluator always has something to say: the message is never
    empty, it holds between one and three advisory lines, and when it
    shows the "no signals" line it shows nothing else. *)
Theorem evaluator_line_bounds price btc_ath ma200 mayer fear_value fees :
  1 <= line_count price btc_ath ma200 mayer fear_value fees <= 3
  /\ message price btc_ath ma200 mayer fear_value fees <> EmptyString
  /\ (shows NO_SIGNAL_LINE
        (message price btc_ath ma200 mayer fear_value fees) = true ->
      check_indexes price btc_ath ma200 mayer fear_value fees
      = (NO_SIGNAL_LINE, 1)).
Proof.
  rewrite line_count_report, message_report, check_indexes_report.
  destruct (buy_signal mayer fear_value), (transfer_signal fees),
    (missing_data price btc_ath ma200 mayer fear_value fees);
    (split; [cbn; lia | split; [vm_compute; discriminate | ]]);
    vm_compute; intros H; first [discriminate H | reflexivity].
Qed.

Lemma evaluator_line_bounds_witness :
  check_indexes (PInt 65000) (PInt 73000) (PInt 60000) (decimal 108 100)
    (PInt 50) (obj [("halfHourFee", PInt 20)])
  = (NO_SIGNAL_LINE, 1).
Proof.
  apply (proj2 (proj2 (evaluator_line_bounds (PInt 65000) (PInt 73000)
                         (PInt 60000) (decimal 108 100) (PInt 50)
                         (obj [("halfHourFee", PInt 20)])))).
  reflexivity.
Defined.


(* ===================================================================== *)
(** * Renderer and main loop: further properties *)
(* ===================================================================== *)

Lemma clear_terminal_lines_app a b :
  0 <= a -> 0 <= b ->
  clear_terminal_lines (a + b)
  = (clear_terminal_lines a ++ clear_terminal_lines b)%list.
Proof.
  intros Ha Hb. unfold clear_terminal_lines.
  rewrite Z2Nat.inj_add by assumption.
  rewrite repeat_app. apply concat_app.
Qed.

Lemma clear_terminal_lines_quiet n :
  printed_rows (clear_terminal_lines n) = 0%nat
  /\ forallb line_edit (clear_terminal_lines n) = true
  /\ formatted_values (clear_terminal_lines n) = []
  /\ sleeps (clear_terminal_lines n) = [].
Proof.
  unfold clear_terminal_lines.
  induction (Z.to_nat n) as [ | k (H1 & H2 & H3 & H4)]; [repeat split | ].
  cbn [repeat List.concat app printed_rows forallb formatted_values sleeps].
  rewrite H1, H2, H3, H4. repeat split.
Qed.

(** X14: [clear_terminal_lines] composes: clearing [a + b] lines is
    clearing [a] and then [b]; a count of zero or below writes nothing;
    [n] lines take [2 n] writes, none of which prints a row or touches
    anything but the line above the cursor. *)
Theorem clear_terminal_lines_compose :
  (forall n, n <= 0 -> clear_terminal_lines n = [])
  /\ (forall a b, 0 <= a -> 0 <= b ->
        clear_terminal_lines (a + b)
        = (clear_terminal_lines a ++ clear_terminal_lines b)%list)
  /\ (forall n, length (clear_terminal_lines n) = (2 * Z.to_nat n)%nat)
  /\ (forall n, erased_lines (clear_terminal_lines n) = Z.to_nat n
                /\ printed_rows (clear_terminal_lines n) = 0%nat
                /\ forallb line_edit (clear_terminal_lines n) = true).
Proof.
  split; [ | split; [ | split]].
  - intros n Hn. unfold clear_terminal_lines.
    replace (Z.to_nat n) with 0%nat by lia. reflexivity.
  - exact clear_terminal_lines_app.
  - intros n. unfold clear_terminal_lines.
    induction (Z.to_nat n) as [ | k IH]; [reflexivity | ].
    cbn [repeat List.concat app length]. rewrite IH. lia.
  - intros n. split; [apply erased_lines_clear | ].
    destruct (clear_terminal_lines_quiet n) as (H1 & H2 & _). auto.
Qed.

Lemma clear_terminal_lines_compose_witness :
  clear_terminal_lines (1 + 7)
  = (clear_terminal_lines 1 ++ clear_terminal_lines 7)%list.
Proof.
  apply (proj1 (proj2 clear_terminal_lines_compose) 1 7); lia.
Defined.

(** The loop, one iteration at a time. *)
Lemma main_loop_unfold w rest :
  main_loop (w :: rest)
  = match cycle w with
    | (out, Raise e) => (out, Raise e)
    | (out, Ok lines) =>
        match rest with
        | [] => ((out ++ [Sleep 1800])%list, Ok tt)
        | _ :: _ =>
            ((out ++ Sleep 1800 :: clear_terminal_lines (lines + 7)
                  ++ fst (main_loop rest))%list,
             snd (main_loop rest))
        end
    end.
Proof.
  destruct rest as [ | w' rest'].
  - cbn [main_loop]. cbv [mbind IO_bind mret IO_ret emit].
    destruct (cycle w) as [out [lines | e]]; reflexivity.
  - change (main_loop (w :: w' :: rest'))
      with (lines ← cycle w;
            emit [Sleep 1800] ;;
            emit (clear_terminal_lines (lines + 7)) ;;
            main_loop (w' :: rest')).
    cbv [mbind IO_bind emit].
    destruct (cycle w) as [out [lines | e]]; [ | reflexivity].
    destruct (main_loop (w' :: rest')) as [out' r]. reflexivity.
Qed.

Lemma printed_rows_app a b :
  printed_rows (a ++ b) = (printed_rows a + printed_rows b)%nat.
Proof.
  induction a as [ | [ | | | ] a IH]; cbn [app printed_rows]; lia.
Qed.

Lemma erased_lines_app a b :
  erased_lines (a ++ b) = (erased_lines a + erased_lines b)%nat.
Proof.
  induction a as [ | [ | | | ] a IH]; cbn [app erased_lines]; lia.
Qed.

Lemma formatted_values_app a b :
  formatted_values (a ++ b)
  = (formatted_values a ++ formatted_values b)%list.
Proof.
  induction a as [ | [ | | | ] a IH]; cbn [app formatted_values]; auto.
  now rewrite IH, app_assoc.
Qed.

Lemma sleeps_app a b : sleeps (a ++ b) = (sleeps a ++ sleeps b)%list.
Proof.
  induction a as [ | [ | | | ] a IH]; cbn [app sleeps]; auto.
  now rewrite IH.
Qed.

Lemma check_print_feeds v :
  value_line_feeds (check_print v) = value_line_feeds v.
Proof. destruct v; reflexivity. Qed.

Lemma check_print_present v : check_print v <> PNone.
Proof. destruct v; discriminate. Qed.

Lemma number_or_none_feeds v :
  v = PNone \/ isinstance_number v = true -> value_line_feeds v = 0%nat.
Proof. intros [-> | H]; [reflexivity | ]. destruct v; try discriminate; reflexivity. Qed.

Ltac fold_literals :=
  repeat match goal with
         | |- context [line_feeds (String ?c ?s)] =>
             let v := eval vm_compute in (line_feeds (String c s)) in
             change (line_feeds (String c s)) with v
         end.

Lemma dashboard_rows price btc_ath ma200 mayer fear_value fear_label fees :
  printed_rows
    (dashboard price btc_ath ma200 mayer fear_value fear_label fees)
  = (6 + value_line_feeds price + value_line_feeds btc_ath
     + value_line_feeds ma200 + value_line_feeds mayer
     + value_line_feeds fear_value + value_line_feeds fear_label
     + value_line_feeds (dict_get fees "fastestFee")
     + value_line_feeds (dict_get fees "halfHourFee")
     + value_line_feeds (dict_get fees "hourFee"))%nat.
Proof.
  unfold dashboard.
  cbn [printed_rows map list_sum fold_right frag_line_feeds].
  fold_literals. rewrite !check_print_feeds. lia.
Qed.

Lemma fee_feeds r key :
  key ∈ FEE_KEYS ->
  value_line_feeds (dict_get (get_transfer_fees r) key) = 0%nat.
Proof.
  intros Hk. destruct (get_transfer_fees_lookup r key Hk) as (v & Hv & Hn).
  unfold dict_get. rewrite Hv. now apply number_or_none_feeds.
Qed.

Lemma moving_average_feeds r : value_line_feeds (get_200_day_ma r) = 0%nat.
Proof.
  destruct (get_200_day_ma_cases r) as [-> | [[z ->] | [-> | [s ->]]]];
    reflexivity.
Qed.

Lemma dashboard_quiet price btc_ath ma200 mayer fear_value fear_label fees :
  erased_lines
    (dashboard price btc_ath ma200 mayer fear_value fear_label fees) = 0%nat
  /\ forallb line_edit
       (dashboard price btc_ath ma200 mayer fear_value fear_label fees) = true
  /\ sleeps (dashboard price btc_ath ma200 mayer fear_value fear_label fees)
     = [].
Proof. repeat split. Qed.

(** X15: the erase count matches what a cycle printed.  In a cycle that
    completes, and whose displayed price, all-time high and fear label
    hold no line feed, the rows printed are the row the cycle erases
    itself (the status line) plus the [lines + 7] rows that the loop
    erases before the next cycle. *)
Theorem printed_rows_match_erase w out lines :
  cycle w = (out, Ok lines) ->
  value_line_feeds (get_btc_price (price_reply w)) = 0%nat ->
  value_line_feeds (get_btc_ath (info_reply w)) = 0%nat ->
  value_line_feeds (snd (get_fear_and_greed (fear_greed_reply w))) = 0%nat ->
  erased_lines out = 1%nat
  /\ printed_rows out
     = (erased_lines out + erased_lines (clear_terminal_lines (lines + 7)))%nat.
Proof.
  intros H Hp Ha Hl. rewrite cycle_output in H.
  destruct (calculate_mayer_index _ _) as [mayer | ] eqn:M; [ | discriminate].
  apply pair_equal_spec in H. destruct H as [<- H]. injection H as <-.
  assert (Hm : value_line_feeds mayer = 0%nat).
  { destruct (mayer_none_or_float _ _ _ M) as [-> | [f ->]]; reflexivity. }
  assert (Hf : value_line_feeds (fst (get_fear_and_greed (fear_greed_reply w)))
               = 0%nat).
  { destruct (fear_value_none_or_int (fear_greed_reply w)) as [-> | [z ->]];
      reflexivity. }
  rewrite (erased_lines_clear (_ + 7)).
  match goal with
  | |- context [(?x :: ?l ++ ?m)%list] =>
      change (x :: l ++ m)%list with ([x] ++ l ++ m)%list
  end.
  rewrite !printed_rows_app, !erased_lines_app, dashboard_rows.
  rewrite Hp, Ha, Hl, Hm, Hf, moving_average_feeds.
  rewrite !fee_feeds by (unfold FEE_KEYS; set_solver).
  destruct (clear_terminal_lines_quiet 1) as (Q & _). rewrite Q.
  rewrite erased_lines_clear.
  destruct (dashboard_quiet (get_btc_price (price_reply w))
              (get_btc_ath (info_reply w)) (get_200_day_ma (range_reply w))
              mayer (fst (get_fear_and_greed (fear_greed_reply w)))
              (snd (get_fear_and_greed (fear_greed_reply w)))
              (get_transfer_fees (fees_reply w))) as (E & _).
  rewrite E.
  cbn [printed_rows erased_lines map list_sum fold_right frag_line_feeds].
  fold_literals.
  rewrite line_count_report, message_report, line_feeds_report.
  split; lia.
Qed.

Lemma printed_rows_match_erase_witness :
  printed_rows (fst (cycle offline))
  = (erased_lines (fst (cycle offline))
     + erased_lines (clear_terminal_lines (1 + 7)))%nat.
Proof.
  apply (printed_rows_match_erase offline (fst (cycle offline)) 1);
    reflexivity.
Defined.

Lemma formatted_dashboard price btc_ath ma200 mayer fear_value fear_label fees :
  formatted_values
    (dashboard price btc_ath ma200 mayer fear_value fear_label fees)
  = map check_print
      [price; btc_ath; ma200; mayer; fear_value; fear_label;
       dict_get fees "fastestFee"; dict_get fees "halfHourFee";
       dict_get fees "hourFee"].
Proof. reflexivity. Qed.

(** What a cycle formats: nine checked values when it completes,
    nothing when the derivation stops it. *)
Lemma formatted_cycle w :
  formatted_values (fst (cycle w)) = []
  \/ exists vs, formatted_values (fst (cycle w)) = map check_print vs.
Proof.
  rewrite cycle_output.
  destruct (calculate_mayer_index _ _) as [mayer | ]; [ | now left].
  right. cbn [fst].
  match goal with
  | |- context [(?x :: ?l ++ ?m)%list] =>
      change (x :: l ++ m)%list with ([x] ++ l ++ m)%list
  end.
  rewrite !formatted_values_app, formatted_dashboard.
  destruct (clear_terminal_lines_quiet 1) as (_ & _ & Q & _). rewrite Q.
  eexists. cbn [formatted_values formatted_in flat_map app].
  rewrite app_nil_r. reflexivity.
Qed.

Lemma cycle_line_edits w : forallb line_edit (fst (cycle w)) = true.
Proof.
  rewrite cycle_output.
  destruct (calculate_mayer_index _ _) as [mayer | ]; [ | reflexivity].
  cbn [fst].
  match goal with
  | |- context [(?x :: ?l ++ ?m)%list] =>
      change (x :: l ++ m)%list with ([x] ++ l ++ m)%list
  end.
  rewrite !forallb_app.
  destruct (clear_terminal_lines_quiet 1) as (_ & Q & _). rewrite Q.
  reflexivity.
Qed.

Lemma cycle_sleeps w : sleeps (fst (cycle w)) = [].
Proof.
  rewrite cycle_output.
  destruct (calculate_mayer_index _ _) as [mayer | ]; [ | reflexivity].
  cbn [fst].
  match goal with
  | |- context [(?x :: ?l ++ ?m)%list] =>
      change (x :: l ++ m)%list with ([x] ++ l ++ m)%list
  end.
  rewrite !sleeps_app.
  destruct (clear_terminal_lines_quiet 1) as (_ & _ & _ & Q). rewrite Q.
  reflexivity.
Qed.

(** Invariants of the loop's output, by induction on the cycles. *)
Lemma main_loop_output ws :
  forallb line_edit (fst (main_loop ws)) = true
  /\ ~ In PNone (formatted_values (fst (main_loop ws)))
  /\ Forall (fun n => n = 1800) (sleeps (fst (main_loop ws)))
  /\ (length (sleeps (fst (main_loop ws))) <= length ws)%nat.
Proof.
  induction ws as [ | w rest (I1 & I2 & I3 & I4)].
  - repeat split; cbn; auto.
  - rewrite main_loop_unfold.
    pose proof (cycle_line_edits w) as C1.
    pose proof (formatted_cycle w) as C2.
    pose proof (cycle_sleeps w) as C3.
    assert (C2' : ~ In PNone (formatted_values (fst (cycle w)))).
    { destruct C2 as [-> | [vs ->]]; [tauto | ].
      rewrite in_map_iff. intros (v & Hv & _).
      now apply (check_print_present v). }
    destruct (cycle w) as [out [lines | e]]; cbn [fst] in *.
    + destruct (clear_terminal_lines_quiet (lines + 7)) as (_ & Q2 & Q3 & Q4).
      destruct rest as [ | w' rest']; cbn [fst].
      * rewrite forallb_app, formatted_values_app, sleeps_app, C1, C3.
        cbn. rewrite app_nil_r. repeat split; auto; try lia.
      * change (Sleep 1800 :: ?l)%list with ([Sleep 1800] ++ l)%list.
        rewrite !forallb_app, !formatted_values_app, !sleeps_app.
        rewrite C1, C3, Q2, Q3, Q4, I1.
        cbn [forallb line_edit andb formatted_values sleeps app].
        repeat split; auto.
        -- intros H. apply in_app_or in H. tauto.
        -- cbn [length] in *. lia.
    + rewrite C1, C3. repeat split; auto. cbn. lia.
Qed.

(** X16: no value that a run interpolates into a printed line is [None]
    itself: every one of them went through [check_print], which puts the
    placeholder in the place of an absent value. *)
Theorem none_is_never_displayed ws :
  ~ In PNone (formatted_values (main ws)).
Proof.
  unfold main.
  destruct (main_loop_output ws) as (_ & H & _).
  destruct (main_loop ws) as [out r]. cbn [fst] in H.
  rewrite !formatted_values_app.
  change (formatted_values (clear_all true)) with (@nil pyval).
  change (formatted_values print_header) with (@nil pyval).
  change (formatted_values (clear_all false)) with (@nil pyval).
  assert (N : formatted_values
                match r with
                | Ok _ => [Println [Lit (LF +:+ "Exiting script..." +:+ LF)]]
                | Raise e =>
                    [Println [Lit (LF +:+ "Something unexpected happened: ");
                              Lit " "; FmtExn e]]
                end = []) by (destruct r; reflexivity).
  rewrite N, !app_nil_r. exact H.
Qed.


(** X18: the loop sleeps for 1800 seconds and nothing else, once after
    each cycle that completes: a run through cycles that all complete
    sleeps exactly once per cycle, and no run sleeps more often. *)
Theorem sleeps_are_half_hours ws :
  Forall (fun n => n = 1800) (sleeps (main ws))
  /\ (length (sleeps (main ws)) <= length ws)%nat
  /\ ((forall w, In w ws -> exists lines, snd (cycle w) = Ok lines) ->
      length (sleeps (main ws)) = length ws).
Proof.
  assert (M : sleeps (main ws) = sleeps (fst (main_loop ws))).
  { unfold main. destruct (main_loop ws) as [out r].
    rewrite !sleeps_app. cbn [fst].
    change (sleeps (clear_all true)) with (@nil Z).
    change (sleeps print_header) with (@nil Z).
    change (sleeps (clear_all false)) with (@nil Z).
    destruct r; cbn; now rewrite app_nil_r. }
  rewrite M.
  destruct (main_loop_output ws) as (_ & _ & H3 & H4).
  split; [exact H3 | split; [exact H4 | ]].
  clear. induction ws as [ | w rest IH]; intros Hall; [reflexivity | ].
  rewrite main_loop_unfold.
  destruct (Hall w (or_introl eq_refl)) as [lines Hw].
  pose proof (cycle_sleeps w) as C.
  destruct (cycle w) as [out [n | e]]; cbn [fst snd] in *; [ | discriminate].
  destruct rest as [ | w' rest']; cbn [fst].
  - rewrite sleeps_app, C. reflexivity.
  - change (Sleep 1800 :: ?l)%list with ([Sleep 1800] ++ l)%list.
    rewrite !sleeps_app, C.
    destruct (clear_terminal_lines_quiet (n + 7)) as (_ & _ & _ & Q).
    rewrite Q. cbn [sleeps app length]. f_equal.
    apply IH. intros w0 Hw0. apply Hall. now right.
Qed.

Lemma sleeps_are_half_hours_witness :
  length (sleeps (main [offline; offline; offline])) = 3%nat.
Proof.
  apply (proj2 (proj2 (sleeps_are_half_hours [offline; offline; offline]))).
  intros w Hw. exists 1.
  destruct Hw as [<- | [<- | [<- | []]]]; reflexivity.
Defined.

(** X19: only the derivation can stop a cycle.  A cycle that raises has
    written the status line and nothing else, the exception is a
    [TypeError] or an [OverflowError] (never a [KeyError] from the fee
    subscripts, never a division by zero), a [TypeError] means that the
    price fetcher handed back something that is no number, and the loop
    ends there: the replies of later cycles are never used. *)
Theorem cycle_stops_only_in_derivation w out e :
  cycle w = (out, Raise e) ->
  out = [Println [Lit "Fetching data..."]]
  /\ (e = TypeError \/ e = OverflowError)
  /\ (e = TypeError ->
      isinstance_number (get_btc_price (price_reply w)) = false)
  /\ (forall rest, main_loop (w :: rest) = (out, Raise e)).
Proof.
  intros H. pose proof H as H0. rewrite cycle_output in H.
  destruct (calculate_mayer_index _ _) as [mayer | e'] eqn:M;
    [discriminate | ].
  injection H as <- <-.
  destruct (calculate_mayer_index_raises _ _ _ M) as (K1 & K2 & K3).
  split; [reflexivity | split; [exact K1 | split]].
  - intros ->. destruct (K3 eq_refl) as [Hp | Hm]; [exact Hp | ].
    exfalso.
    destruct (get_200_day_ma_cases (range_reply w))
      as [E | [[z E] | [E | [s E]]]]; rewrite E in *; try discriminate Hm.
    unfold calculate_mayer_index in M. cbn [truthy] in M.
    rewrite andb_false_r in M. discriminate M.
  - intros rest. rewrite main_loop_unfold, H0. reflexivity.
Qed.

Lemma cycle_stops_only_in_derivation_witness :
  main_loop
    [{| price_reply :=
          Reply 200 (Some (obj [("bitcoin", obj [("usd", PStr "n/a")])]));
        info_reply := NoReply;
        range_reply :=
          Reply 200 (Some (obj [("prices",
            PList [PList [PInt 1700000000000; PInt 60000]])]));
        fear_greed_reply := NoReply;
        fees_reply := NoReply |}; offline]
  = ([Println [Lit "Fetching data..."]], Raise TypeError).
Proof.
  apply (cycle_stops_only_in_derivation
           {| price_reply :=
                Reply 200 (Some (obj [("bitcoin", obj [("usd", PStr "n/a")])]));
              info_reply := NoReply;
              range_reply :=
                Reply 200 (Some (obj [("prices",
                  PList [PList [PInt 1700000000000; PInt 60000]])]));
              fear_greed_reply := NoReply;
              fees_reply := NoReply |}
           [Println [Lit "Fetching data..."]] TypeError).
  reflexivity.
Defined.

(** X20: a cycle in which no endpoint delivers a document still completes:
    it shows the placeholder in all nine places, its message is exactly
    the missing-data warning, and its line count is 1. *)
Theorem cycle_without_documents w :
  decoded (price_reply w) = None -> decoded (info_reply w) = None ->
  decoded (range_reply w) = None -> decoded (fear_greed_reply w) = None ->
  decoded (fees_reply w) = None ->
  cycle w = cycle offline
  /\ formatted_values (fst (cycle w)) = repeat (PStr "--") 9
  /\ last (fst (cycle w)) = Some (Println [Lit MISSING_LINE])
  /\ snd (cycle w) = Ok 1.
Proof.
  intros D1 D2 D3 D4 D5.
  assert (E : cycle w = cycle offline).
  { rewrite !cycle_output.
    destruct (undelivered_absent _ D1) as (-> & _).
    destruct (undelivered_absent _ D2) as (_ & -> & _).
    destruct (undelivered_absent _ D3) as (_ & _ & -> & _).
    destruct (undelivered_absent _ D4) as (_ & _ & _ & -> & _).
    destruct (undelivered_absent _ D5) as (_ & _ & _ & _ & ->).
    reflexivity. }
  rewrite E. repeat split.
Qed.

Lemma cycle_without_documents_witness :
  snd (cycle {| price_reply := Reply 500 None; info_reply := Reply 404 None;
                range_reply := NoReply; fear_greed_reply := Reply 200 None;
                fees_reply := Reply 429 (Some (PStr "slow down")) |})
  = Ok 1.
Proof.
  apply (cycle_without_documents
           {| price_reply := Reply 500 None; info_reply := Reply 404 None;
              range_reply := NoReply; fear_greed_reply := Reply 200 None;
              fees_reply := Reply 429 (Some (PStr "slow down")) |});
    reflexivity.
Defined.
